(** * bugx: tunnel supervisor and connection registry

    A shallow embedding of the Go sources under [bugx/cmd]:
    [connection.go] (the registry), [connect.go] (the supervisor),
    [disconnect.go] (teardown) and the daemon entry point and runtime.

    Conventions of the embedding:
    - a Go [string] is the [string] of its bytes; [encoding/json] keeps
      the well-formed UTF-8 of it;
    - a Go [int] / [int32] is a [Z], with the range of the type checked
      where the code converts or decodes;
    - a Go slice keeps the distinction between the nil slice and an empty
      one, because [encoding/json] writes them differently;
    - [error] values are an inductive type with one constructor per
      [fmt.Errorf] site; a [nil] error is [None];
    - everything outside the process (file system, process table,
      cluster API, tunnel I/O) answers through an environment record that
      is an argument of the command: the theorems quantify over it. *)

From Stdlib Require Import ZArith List String Ascii Bool Lia DecimalString.
Import ListNotations.
Local Open Scope string_scope.
Local Open Scope Z_scope.

Set Implicit Arguments.
Set Warnings "-register-all".

(* ------------------------------------------------------------------ *)
(** ** Go values used by the sources *)

Module Go.

(** A slice value: [nil], or a backing sequence (possibly of length 0). *)
Inductive slice (A : Type) : Type :=
| nil_slice
| mk_slice (l : list A).
Arguments nil_slice {A}.

Definition elems {A} (s : slice A) : list A :=
  match s with
  | nil_slice => []
  | mk_slice l => l
  end.

(** [append(s, x)]: never nil. *)
Definition append {A} (s : slice A) (x : A) : slice A :=
  mk_slice (elems s ++ [x]).

(** The pattern [var out []T; for ... { out = append(out, x) }] leaves
    [out] nil when nothing was appended. *)
Definition collect {A} (l : list A) : slice A :=
  fold_left append l nil_slice.

(** Ranges of the integer types (64-bit [int], as on every release
    target of the project). *)
Definition in_int (z : Z) : bool := (- 2 ^ 63 <=? z) && (z <? 2 ^ 63).
Definition in_int32 (z : Z) : bool := (- 2 ^ 31 <=? z) && (z <? 2 ^ 31).

(** [strconv.ParseInt(s, 10, bitSize)]: optional sign, then one or more
    decimal digits, the value within the signed range of [bitSize]. *)
Definition is_digit (c : ascii) : bool :=
  (48 <=? Z.of_nat (nat_of_ascii c)) && (Z.of_nat (nat_of_ascii c) <=? 57).

Fixpoint parse_digits (s : string) (acc : Z) : option Z :=
  match s with
  | EmptyString => Some acc
  | String c s' =>
      if is_digit c
      then parse_digits s' (10 * acc + (Z.of_nat (nat_of_ascii c) - 48))
      else None
  end.

Definition split_sign (s : string) : bool * string :=
  match s with
  | String "+"%char rest => (false, rest)
  | String "-"%char rest => (true, rest)
  | _ => (false, s)
  end.

Definition ParseInt (s : string) (bitSize : Z) : option Z :=
  let '(neg, body) := split_sign s in
  match body with
  | EmptyString => None
  | _ =>
      match parse_digits body 0 with
      | None => None
      | Some un =>
          let cutoff := 2 ^ (bitSize - 1) in
          if neg
          then if un <=? cutoff then Some (- un) else None
          else if un <? cutoff then Some un else None
      end
  end.

(** [strconv.Itoa]. *)
Definition Itoa (z : Z) : string := NilZero.string_of_int (Z.to_int z).

(** [strings.Join]. *)
Fixpoint Join (parts : list string) (sep : string) : string :=
  match parts with
  | [] => ""
  | [p] => p
  | p :: ps => p ++ sep ++ Join ps sep
  end.

(** [unicode/utf8].  A byte of a string, as a number. *)
Definition byte (c : ascii) : N := N_of_ascii c.

Definition between (lo hi : N) (c : ascii) : bool :=
  ((lo <=? byte c) && (byte c <=? hi))%N.

(** The tables [first] and [acceptRanges]: for the leading byte of a
    multi-byte sequence, the length of the sequence and the range of its
    second byte.  The bytes 80..C1 and F5..FF lead nothing. *)
Definition leading (c : ascii) : option (nat * N * N) :=
  if between 194 223 c then Some (2%nat, 128%N, 191%N)
  else if between 224 224 c then Some (3%nat, 160%N, 191%N)
  else if between 225 236 c then Some (3%nat, 128%N, 191%N)
  else if between 237 237 c then Some (3%nat, 128%N, 159%N)
  else if between 238 239 c then Some (3%nat, 128%N, 191%N)
  else if between 240 240 c then Some (4%nat, 144%N, 191%N)
  else if between 241 243 c then Some (4%nat, 128%N, 191%N)
  else if between 244 244 c then Some (4%nat, 128%N, 143%N)
  else None.

(** [n] continuation bytes (80..BF) at the head of [s]. *)
Fixpoint continuation (n : nat) (s : string) : option (string * string) :=
  match n with
  | O => Some ("", s)
  | S n' =>
      match s with
      | String c s' =>
          if between 128 191 c
          then match continuation n' s' with
               | Some (r, rest) => Some (String c r, rest)
               | None => None
               end
          else None
      | EmptyString => None
      end
  end.

(** [utf8.DecodeRuneInString(s)] on a non-empty [s]: the bytes of the
    first rune and what follows them, or [None] where Go answers
    [(RuneError, 1)]: the sequence is ill-formed or cut short. *)
Definition DecodeRuneInString (s : string) : option (string * string) :=
  match s with
  | EmptyString => None
  | String c0 s1 =>
      if (byte c0 <? 128)%N then Some (String c0 "", s1)
      else
        match leading c0, s1 with
        | Some (size, lo, hi), String c1 s2 =>
            if between lo hi c1
            then match continuation (size - 2) s2 with
                 | Some (r, rest) => Some (String c0 (String c1 r), rest)
                 | None => None
                 end
            else None
        | _, _ => None
        end
  end.

(** U+FFFD, the replacement character, in UTF-8. *)
Definition replacement : string :=
  String (ascii_of_N 239) (String (ascii_of_N 191) (String (ascii_of_N 189) "")).

End Go.

Import Go.

(** Results of fallible calls: a value or an error. *)
Inductive result (E A : Type) : Type :=
| Ok (a : A)
| Err (e : E).
Arguments Ok {E A}.
Arguments Err {E A}.

(* ------------------------------------------------------------------ *)
(** ** JSON documents

    [encoding/json] is a library, not part of the sources: it is
    embedded at the level of documents.  A file written by
    [json.MarshalIndent] is represented by the document it spells, and
    [json.Unmarshal] reads a document.  The text layer (indentation,
    escaping) is not represented.  A string of a document is the bytes
    between its quotes, escapes resolved; the encoder writes a Go string
    coerced to valid UTF-8 and the decoder coerces what it reads in the
    same way.  Number literals are the integer ones, the only ones the
    program writes. *)

Module Json.

Inductive json : Type :=
| JNull
| JBool (b : bool)
| JNumber (n : Z)
| JString (s : string)
| JArray (items : list json)
| JObject (members : list (string * json)).

(** What [encoding/json] does to a Go string on the way into a JSON text
    and on the way out of one: well-formed runes are kept, every byte
    that starts no well-formed rune becomes U+FFFD.  [fuel] bounds the
    number of runes. *)
Fixpoint coerce_runes (fuel : nat) (s : string) : string :=
  match fuel with
  | O => ""
  | S fuel' =>
      match s with
      | EmptyString => ""
      | String _ tail =>
          match DecodeRuneInString s with
          | Some (r, rest) => r ++ coerce_runes fuel' rest
          | None => replacement ++ coerce_runes fuel' tail
          end
      end
  end.

Definition coerce (s : string) : string := coerce_runes (String.length s) s.

(** [utf8.ValidString]: nothing to replace. *)
Definition ValidString (s : string) : bool := String.eqb (coerce s) s.

End Json.

Import Json.

(* ------------------------------------------------------------------ *)
(** ** connection.go: the registry *)

(** [type ConnectionInfo struct] *)
Record ConnectionInfo : Type := mkConn {
  PID : Z;                (* int    `json:"pid"`          *)
  ServiceName : string;   (* string `json:"service_name"` *)
  Namespace : string;     (* string `json:"namespace"`    *)
  LocalPort : string;     (* string `json:"local_port"`   *)
  RemotePort : Z;         (* int32  `json:"remote_port"`  *)
  PodName : string;       (* string `json:"pod_name"`     *)
  Kubeconfig : string;    (* string `json:"kubeconfig"`   *)
  Status : string         (* string `json:"status"`: "active", "stopped" *)
}.

(** The zero value of the struct. *)
Definition zero_conn : ConnectionInfo :=
  mkConn 0 "" "" "" 0 "" "" "".

(** The values a Go program can hold in the two integer fields. *)
Definition conn_in_range (c : ConnectionInfo) : bool :=
  in_int (PID c) && in_int32 (RemotePort c).

(** A record whose six strings are valid UTF-8. *)
Definition conn_text (c : ConnectionInfo) : bool :=
  ValidString (ServiceName c) && ValidString (Namespace c)
  && ValidString (LocalPort c) && ValidString (PodName c)
  && ValidString (Kubeconfig c) && ValidString (Status c).

(** The record as it comes back from the registry file: every string
    coerced to valid UTF-8. *)
Definition coerced (c : ConnectionInfo) : ConnectionInfo :=
  mkConn (PID c) (coerce (ServiceName c)) (coerce (Namespace c))
         (coerce (LocalPort c)) (RemotePort c) (coerce (PodName c))
         (coerce (Kubeconfig c)) (coerce (Status c)).

Definition coerced_slice (s : slice ConnectionInfo) : slice ConnectionInfo :=
  match s with
  | nil_slice => nil_slice
  | mk_slice l => mk_slice (map coerced l)
  end.

(** The records a load can return: integers in range, strings valid. *)
Definition conn_stored (c : ConnectionInfo) : bool :=
  conn_in_range c && conn_text c.

Inductive field : Type :=
| FPID | FServiceName | FNamespace | FLocalPort
| FRemotePort | FPodName | FKubeconfig | FStatus.

(** The struct tags. *)
Definition field_tag (f : field) : string :=
  match f with
  | FPID => "pid"
  | FServiceName => "service_name"
  | FNamespace => "namespace"
  | FLocalPort => "local_port"
  | FRemotePort => "remote_port"
  | FPodName => "pod_name"
  | FKubeconfig => "kubeconfig"
  | FStatus => "status"
  end.

Definition fields : list field :=
  [FPID; FServiceName; FNamespace; FLocalPort;
   FRemotePort; FPodName; FKubeconfig; FStatus].

(** The value the encoder writes for a field: a string is coerced to
    valid UTF-8. *)
Definition field_value (f : field) (c : ConnectionInfo) : json :=
  match f with
  | FPID => JNumber (PID c)
  | FServiceName => JString (coerce (ServiceName c))
  | FNamespace => JString (coerce (Namespace c))
  | FLocalPort => JString (coerce (LocalPort c))
  | FRemotePort => JNumber (RemotePort c)
  | FPodName => JString (coerce (PodName c))
  | FKubeconfig => JString (coerce (Kubeconfig c))
  | FStatus => JString (coerce (Status c))
  end.

(** [json.MarshalIndent] of one struct: an object with one member per
    field, in declaration order, keyed by the tag. *)
Definition marshal_conn (c : ConnectionInfo) : json :=
  JObject (map (fun f => (field_tag f, field_value f c)) fields).

(** [json.MarshalIndent] of the slice (no prefix, two spaces of
    indentation): [null] for the nil slice, an array otherwise.  It
    cannot fail on this type. *)
Definition json_MarshalIndent (s : slice ConnectionInfo) : json :=
  match s with
  | nil_slice => JNull
  | mk_slice l => JArray (map marshal_conn l)
  end.

(** Key matching of the decoder: an exact match of a tag is preferred, a
    match up to ASCII case is accepted.  (The decoder coerces a key as it
    does any string; the tags being ASCII, a key matches after the
    coercion exactly when it does before.) *)
Definition upper (c : ascii) : ascii :=
  let n := nat_of_ascii c in
  if (Nat.leb 97 n && Nat.leb n 122)%bool then ascii_of_nat (n - 32) else c.

Fixpoint fold_case (s : string) : string :=
  match s with
  | EmptyString => EmptyString
  | String c s' => String (upper c) (fold_case s')
  end.

Definition lookup_field (key : string) : option field :=
  match find (fun f => String.eqb (field_tag f) key) fields with
  | Some f => Some f
  | None =>
      find (fun f => String.eqb (fold_case (field_tag f)) (fold_case key)) fields
  end.

(** Storing a JSON value into a field: [null] leaves the field alone, a
    value of the wrong kind or out of the range of the Go type is an
    [UnmarshalTypeError]; a string is stored coerced to valid UTF-8. *)
Definition set_field (f : field) (v : json) (c : ConnectionInfo)
  : option ConnectionInfo :=
  match v with
  | JNull => Some c
  | _ =>
      match f, v with
      | FPID, JNumber n =>
          if in_int n
          then Some (mkConn n (ServiceName c) (Namespace c) (LocalPort c)
                            (RemotePort c) (PodName c) (Kubeconfig c) (Status c))
          else None
      | FServiceName, JString s =>
          Some (mkConn (PID c) (coerce s) (Namespace c) (LocalPort c)
                       (RemotePort c) (PodName c) (Kubeconfig c) (Status c))
      | FNamespace, JString s =>
          Some (mkConn (PID c) (ServiceName c) (coerce s) (LocalPort c)
                       (RemotePort c) (PodName c) (Kubeconfig c) (Status c))
      | FLocalPort, JString s =>
          Some (mkConn (PID c) (ServiceName c) (Namespace c) (coerce s)
                       (RemotePort c) (PodName c) (Kubeconfig c) (Status c))
      | FRemotePort, JNumber n =>
          if in_int32 n
          then Some (mkConn (PID c) (ServiceName c) (Namespace c) (LocalPort c)
                            n (PodName c) (Kubeconfig c) (Status c))
          else None
      | FPodName, JString s =>
          Some (mkConn (PID c) (ServiceName c) (Namespace c) (LocalPort c)
                       (RemotePort c) (coerce s) (Kubeconfig c) (Status c))
      | FKubeconfig, JString s =>
          Some (mkConn (PID c) (ServiceName c) (Namespace c) (LocalPort c)
                       (RemotePort c) (PodName c) (coerce s) (Status c))
      | FStatus, JString s =>
          Some (mkConn (PID c) (ServiceName c) (Namespace c) (LocalPort c)
                       (RemotePort c) (PodName c) (Kubeconfig c) (coerce s))
      | _, _ => None
      end
  end.

(** Members are read in order (a later duplicate overrides an earlier
    one); members that match no field are skipped. *)
Fixpoint unmarshal_members (ms : list (string * json)) (c : ConnectionInfo)
  : option ConnectionInfo :=
  match ms with
  | [] => Some c
  | (k, v) :: ms' =>
      match lookup_field k with
      | None => unmarshal_members ms' c
      | Some f =>
          match set_field f v c with
          | Some c' => unmarshal_members ms' c'
          | None => None
          end
      end
  end.

Definition unmarshal_conn (j : json) : option ConnectionInfo :=
  match j with
  | JNull => Some zero_conn
  | JObject ms => unmarshal_members ms zero_conn
  | _ => None
  end.

Fixpoint unmarshal_items (items : list json) : option (list ConnectionInfo) :=
  match items with
  | [] => Some []
  | j :: items' =>
      match unmarshal_conn j, unmarshal_items items' with
      | Some c, Some cs => Some (c :: cs)
      | _, _ => None
      end
  end.

(** [json.Unmarshal(data, &connections)] with [connections] the nil
    slice declared just before: [null] leaves it nil, an array fills a
    fresh slice, anything else is an error. *)
Definition json_Unmarshal (j : json) : option (slice ConnectionInfo) :=
  match j with
  | JNull => Some nil_slice
  | JArray items =>
      match unmarshal_items items with
      | Some cs => Some (mk_slice cs)
      | None => None
      end
  | _ => None
  end.

(* ------------------------------------------------------------------ *)
(** ** Errors

    One constructor per error the sources build.  The text of an error
    that comes from outside the program (the [%v] of a wrapped system or
    cluster error) is not represented. *)

Inductive error : Type :=
(* connection.go *)
| ErrConfigDir                 (* "failed to create config directory: %v" *)
| ErrReadFile                  (* "failed to read connections file: %v" *)
| ErrParseFile                 (* "failed to parse connections file: %v" *)
| ErrMarshal                   (* "failed to marshal connections: %v" *)
| ErrWriteFile                 (* the error of os.WriteFile *)
| ErrConnNotFound              (* "connection not found" *)
(* connect.go *)
| ErrUsage                     (* cobra's argument-count check *)
| ErrKubeconfigNotFound        (* "kubeconfig not found. Use --kubeconfig ..." *)
| ErrBuildConfig               (* "failed to build config: %v" *)
| ErrClientset                 (* "failed to create clientset: %v" *)
| ErrGetService                (* "failed to get service: %v" *)
| ErrInvalidRemotePort         (* "invalid remote port: %v" *)
| ErrNoSelector (service : string)          (* "service %s has no selector" *)
| ErrListPods                  (* "failed to list pods: %v" *)
| ErrNoPods (service selector : string)     (* "no pods found for service ..." *)
| ErrAlreadyExists (namespace service localPort : string)
                               (* "connection to %s/%s already exists on localhost:%s" *)
| ErrExecutable                (* "failed to get executable path: %v" *)
| ErrLoadConnections (cause : error)        (* "failed to load connections: %v" *)
| ErrStartDaemon               (* "failed to start daemon process: %v" *)
| ErrDaemonExited (pid : Z)    (* "daemon process (PID %d) failed to start or exited immediately. ..." *)
| ErrSaveConnInfo (cause : error)           (* "failed to save connection info: %v" *)
| ErrPortForward (cause : error)            (* "port-forward failed: %v" *)
| ErrRoundTripper              (* "failed to create round tripper: %v" *)
| ErrCreatePortForward         (* "failed to create port-forward: %v" *)
(* disconnect.go *)
| ErrNoSuchConnection (namespace service : string)  (* "connection not found: %s/%s" *)
| ErrFindProcess (pid : Z)     (* "failed to find process %d: %v" *)
| ErrKillProcess (pid : Z)     (* "failed to kill process %d: %v" *)
| ErrRemoveConnection (cause : error)       (* "failed to remove connection: %v" *)
(* daemon entry point and runtime *)
| ErrMissingFlags (kubeconfig service pod localport remoteport : string)
                               (* "missing required flags: kubeconfig=%s, ..." *)
| ErrFailedToStart (cause : error)          (* "port-forward failed to start: %v" *)
| ErrReadyTimeout              (* "port-forward timed out waiting for ready" *)
(* an error reported by the tunnel I/O *)
| ErrTunnel (msg : string).

Declare Scope result_scope.
Delimit Scope result_scope with result.
Notation "x <- c ;; k" :=
  (match c with
   | Ok x => k
   | Err e => Err e
   end)
  (at level 61, c at next level, right associativity) : result_scope.

(* ------------------------------------------------------------------ *)
(** ** The registry file and the file system around it

    [~/.bugx/connections.json] is absent or holds data.  Data is the
    JSON document it spells ([Text]), zero bytes ([Blank]), or bytes that
    are not a JSON text ([Corrupt]).  Whether the directory exists is not
    part of the state: [os.MkdirAll] succeeds or fails as the environment
    says.  [connectionsMutex] serialises the operations inside one
    process; here the commands run one at a time and the lock has no
    counterpart. *)

Inductive filedata : Type :=
| Text (doc : json)
| Blank
| Corrupt.

Definition file := option filedata.

(** What [os.WriteFile] (open with O_TRUNC, write, close) can do. *)
Inductive WriteOutcome : Type :=
| WriteOk            (* nil: the file holds the data *)
| WriteRefused       (* the open failed: the file is as before *)
| WriteTruncated     (* truncated, nothing written: zero bytes remain *)
| WriteTorn          (* truncated, a proper prefix written *)
| WriteUnconfirmed.  (* all written, the close reported an error *)

(** How the file system answers the calls made while these answers are
    in force: one run of a command, or one of the two moments of a
    connect (see [ConnectEnv]). *)
Record FsEnv : Type := mkFsEnv {
  mkdir_ok : bool;            (* os.MkdirAll(dir, 0700) succeeds *)
  read_ok : bool;             (* os.ReadFile fails only with "not exist" *)
  write_out : WriteOutcome    (* os.WriteFile(filePath, data, 0600) *)
}.

Inductive ReadResult : Type :=
| ReadData (d : filedata)
| ReadNotExist
| ReadError.

Definition os_ReadFile (e : FsEnv) (f : file) : ReadResult :=
  if read_ok e
  then match f with
       | Some d => ReadData d
       | None => ReadNotExist
       end
  else ReadError.

Definition os_WriteFile (e : FsEnv) (data : json) (f : file)
  : option error * file :=
  match write_out e with
  | WriteOk => (None, Some (Text data))
  | WriteRefused => (Some ErrWriteFile, f)
  | WriteTruncated => (Some ErrWriteFile, Some Blank)
  | WriteTorn => (Some ErrWriteFile, Some Corrupt)
  | WriteUnconfirmed => (Some ErrWriteFile, Some (Text data))
  end.

(** [func loadConnections() ([]ConnectionInfo, error)] *)
Definition loadConnections (e : FsEnv) (f : file)
  : result error (slice ConnectionInfo) :=
  if negb (mkdir_ok e) then Err ErrConfigDir else
  match os_ReadFile e f with
  | ReadNotExist => Ok (mk_slice [])
  | ReadError => Err ErrReadFile
  | ReadData Blank => Ok nil_slice              (* len(data) == 0 *)
  | ReadData Corrupt => Err ErrParseFile
  | ReadData (Text doc) =>
      match json_Unmarshal doc with
      | Some connections => Ok connections
      | None => Err ErrParseFile
      end
  end.

(** [func saveConnections(connections []ConnectionInfo) error] *)
Definition saveConnections (e : FsEnv) (connections : slice ConnectionInfo)
                           (f : file) : option error * file :=
  if negb (mkdir_ok e) then (Some ErrConfigDir, f) else
  os_WriteFile e (json_MarshalIndent connections) f.

(** [func addConnection(conn ConnectionInfo) error] *)
Definition addConnection (e : FsEnv) (conn : ConnectionInfo) (f : file)
  : option error * file :=
  match loadConnections e f with
  | Err err => (Some err, f)
  | Ok connections => saveConnections e (append connections conn) f
  end.

Definition same_key (serviceName namespace : string) (conn : ConnectionInfo)
  : bool :=
  String.eqb (ServiceName conn) serviceName
  && String.eqb (Namespace conn) namespace.

(** [func removeConnection(serviceName, namespace string) error]:
    the loop keeps [conn] when
    [conn.ServiceName != serviceName || conn.Namespace != namespace]. *)
Definition removeConnection (e : FsEnv) (serviceName namespace : string)
                            (f : file) : option error * file :=
  match loadConnections e f with
  | Err err => (Some err, f)
  | Ok connections =>
      let updated :=
        collect (filter (fun conn =>
                           negb (String.eqb (ServiceName conn) serviceName)
                           || negb (String.eqb (Namespace conn) namespace))
                        (elems connections)) in
      saveConnections e updated f
  end.

Definition with_status (status : string) (c : ConnectionInfo) : ConnectionInfo :=
  mkConn (PID c) (ServiceName c) (Namespace c) (LocalPort c)
         (RemotePort c) (PodName c) (Kubeconfig c) status.

(** The loop of [updateConnectionStatus]: the first element with the key
    gets the status; [None] when the loop ends without a match. *)
Fixpoint mark_first (serviceName namespace status : string)
                    (l : list ConnectionInfo) : option (list ConnectionInfo) :=
  match l with
  | [] => None
  | c :: l' =>
      if same_key serviceName namespace c
      then Some (with_status status c :: l')
      else match mark_first serviceName namespace status l' with
           | Some l'' => Some (c :: l'')
           | None => None
           end
  end.

(** [func updateConnectionStatus(serviceName, namespace, status string) error] *)
Definition updateConnectionStatus (e : FsEnv)
                                  (serviceName namespace status : string)
                                  (f : file) : option error * file :=
  match loadConnections e f with
  | Err err => (Some err, f)
  | Ok connections =>
      match mark_first serviceName namespace status (elems connections) with
      | Some l => saveConnections e (mk_slice l) f
      | None => (Some ErrConnNotFound, f)
      end
  end.

(** [func findConnection(serviceName, namespace string)]: a pointer to a
    copy of the first match, or an error. *)
Definition findConnection (e : FsEnv) (serviceName namespace : string)
                          (f : file) : result error ConnectionInfo :=
  match loadConnections e f with
  | Err err => Err err
  | Ok connections =>
      match find (same_key serviceName namespace) (elems connections) with
      | Some conn => Ok conn
      | None => Err ErrConnNotFound
      end
  end.

(* ------------------------------------------------------------------ *)
(** ** Processes, output and the state of a run *)

Inductive signal : Type := SIGTERM | SIGKILL.

(** The blocks of text the commands print (their layout is not
    represented). *)
Inductive message : Type :=
| MsgHelp
| MsgStarted (conn : ConnectionInfo)            (* "Port-forward started in background!" *)
| MsgConnections (shown : list ConnectionInfo)  (* displayConnections *)
| MsgAlreadyStopped (namespace service : string)
                                 (* "Connection to %s/%s was already stopped." *)
| MsgDisconnected (namespace service : string) (pid : Z)
                                 (* "Connection Disconnected" *)
| MsgDaemonStarted (pid : Z)     (* stderr: "Port-forward daemon started (PID: %d)" *)
| MsgDaemonStopping              (* stderr: "Port-forward daemon stopping..." *)
| MsgPortForwardError (err : error).  (* stderr: "Port-forward error: %v" *)

(** What a command does to the world besides the registry file. *)
Inductive event : Type :=
| EvPrint (m : message)
| EvSpawn (pid : Z) (argv : list string)   (* cmd.Start() returned nil *)
| EvSignal (pid : Z) (sig : signal)        (* process.Signal / process.Kill *)
| EvTunnelStart (namespace pod localPort : string) (remotePort : Z)
                                           (* the forwarding goroutine is launched *)
| EvTunnelStop.                            (* close(stopChan) *)

Record World : Type := mkWorld {
  registry : file;
  trace : list event
}.

Definition log (ev : event) (w : World) : World :=
  mkWorld (registry w) (trace w ++ [ev]).

Definition with_registry (f : file) (w : World) : World :=
  mkWorld f (trace w).

(** The answers of the operating system during one run of a command:
    the file system, and for each pid whether the call
    [process.Signal(sig)] returns nil.  Signal 0 is the existence probe of
    kill(2): nothing is delivered. *)
Record SysEnv : Type := mkSysEnv {
  fs : FsEnv;
  signal0_ok : Z -> bool;
  sigterm_ok : Z -> bool;
  sigkill_ok : Z -> bool
}.

(** [os.FindProcess]: on Unix it always returns a handle. *)
Definition os_FindProcess (pid : Z) : result error Z := Ok pid.

(** [func isProcessRunning(pid int) bool] (connect.go) *)
Definition isProcessRunning (e : SysEnv) (pid : Z) : bool :=
  match os_FindProcess pid with
  | Err _ => false
  | Ok process => signal0_ok e process
  end.

(* ------------------------------------------------------------------ *)
(** ** kubeconfig.go and connect.go: the supervisor *)

(** What the cluster says about a service: its ports and its selector
    (the entries in the order the map iteration yields them). *)
Record Service : Type := mkService {
  svc_ports : list Z;
  svc_selector : list (string * string)
}.

(** The ways [createForegroundPortForward] returns. *)
Inductive ForegroundOutcome : Type :=
| FgRoundTripperFailed          (* spdy.RoundTripperFor *)
| FgCreateFailed                (* portforward.New *)
| FgForwardFailed (msg : string)   (* an error on errChan before ready *)
| FgStopped.                    (* interrupted by the operator: nil *)

(** A connect reads the registry twice, about a second apart: for the
    duplicate check, and inside [addConnection] after the wait.  [sys]
    answers the check and the probe, [fs_save] is the file system as
    [addConnection] finds it. *)
Record ConnectEnv : Type := mkConnectEnv {
  sys : SysEnv;
  fs_save : FsEnv;
  stat_ok : string -> bool;            (* os.Stat(path) returns nil *)
  getenv_KUBECONFIG : string;
  default_kubeconfig : string;         (* filepath.Join(HOME, ".kube", "config") *)
  build_config_ok : string -> bool;    (* clientcmd.BuildConfigFromFlags *)
  clientset_ok : bool;                 (* kubernetes.NewForConfig *)
  get_service : string -> string -> option Service;
                                       (* Services(namespace).Get(name) *)
  list_pods : string -> string -> option (list string);
                                       (* Pods(namespace).List(selector): the names *)
  executable : option string;          (* os.Executable() *)
  start : option Z;                    (* cmd.Start(): the pid of the child *)
  foreground : ForegroundOutcome       (* how the attached tunnel ends *)
}.

(** The flag variables of [connect] when [RunE] starts (cobra has filled
    in the defaults: empty, "default", empty, empty, true), and the
    arguments. *)
Record ConnectCmdLine : Type := mkConnectCmdLine {
  args : list string;
  kubeconfig : string;
  namespace : string;
  localPort : string;
  remotePort : string;
  background : bool
}.

(** [func getKubeconfigPath(flagPath string) string] *)
Definition getKubeconfigPath (e : ConnectEnv) (flagPath : string) : string :=
  if negb (String.eqb flagPath "") && stat_ok e flagPath then flagPath
  else if negb (String.eqb (getenv_KUBECONFIG e) "")
          && stat_ok e (getenv_KUBECONFIG e)
  then getenv_KUBECONFIG e
  else if stat_ok e (default_kubeconfig e) then default_kubeconfig e
  else "".

(** What [RunE] of [connect] has worked out when it reaches the registry. *)
Record Target : Type := mkTarget {
  t_kubeconfigPath : string;
  t_namespace : string;
  t_podName : string;
  t_localPort : string;
  t_remotePort : Z
}.

(** Lines 52--123 of connect.go. *)
Definition resolve (e : ConnectEnv) (cl : ConnectCmdLine) (servicename : string)
  : result error Target :=
  (let kubeconfigPath := getKubeconfigPath e (kubeconfig cl) in
   if String.eqb kubeconfigPath "" then Err ErrKubeconfigNotFound else
   if negb (build_config_ok e kubeconfigPath) then Err ErrBuildConfig else
   if negb (clientset_ok e) then Err ErrClientset else
   let namespace := if String.eqb (namespace cl) "" then "default"
                    else namespace cl in
   svc <- match get_service e namespace servicename with
          | Some svc => Ok svc
          | None => Err ErrGetService
          end ;;
   remotePortInt <-
     (if negb (String.eqb (remotePort cl) "")
      then match ParseInt (remotePort cl) 32 with
           | Some port => Ok port
           | None => Err ErrInvalidRemotePort
           end
      else match svc_ports svc with
           | port :: _ => Ok port
           | [] => Ok 3306
           end) ;;
   let selector :=
     Join (map (fun kv => fst kv ++ "=" ++ snd kv) (svc_selector svc)) "," in
   if String.eqb selector "" then Err (ErrNoSelector servicename) else
   pods <- match list_pods e namespace selector with
           | Some pods => Ok pods
           | None => Err ErrListPods
           end ;;
   match pods with
   | [] => Err (ErrNoPods servicename selector)
   | podName :: _ =>
       let localPortInt :=
         if negb (String.eqb (localPort cl) "") then localPort cl
         else Itoa (remotePortInt + 1) in
       Ok (mkTarget kubeconfigPath namespace podName localPortInt remotePortInt)
   end)%result.

(** [func createForegroundPortForward]: the tunnel runs attached until
    it fails or the operator interrupts it; the registry is not touched.
    What it prints is not represented. *)
Definition createForegroundPortForward (e : ConnectEnv)
    (namespace podName localPort : string) (remotePort : Z) (w : World)
  : option error * World :=
  match foreground e with
  | FgRoundTripperFailed => (Some ErrRoundTripper, w)
  | FgCreateFailed => (Some ErrCreatePortForward, w)
  | FgForwardFailed msg =>
      (Some (ErrPortForward (ErrTunnel msg)),
       log (EvTunnelStart namespace podName localPort remotePort) w)
  | FgStopped =>
      (None,
       log EvTunnelStop
         (log (EvTunnelStart namespace podName localPort remotePort) w))
  end.

Definition daemon_argv (execPath kubeconfigPath namespace serviceName podName
                        localPort : string) (remotePort : Z) : list string :=
  [execPath; "daemon"; "portforward";
   "--kubeconfig"; kubeconfigPath;
   "--namespace"; namespace;
   "--service"; serviceName;
   "--pod"; podName;
   "--localport"; localPort;
   "--remoteport"; Itoa remotePort].

(** [func createBackgroundPortForward].  The redirection of the child's
    standard streams and the two sleeps leave no trace in the model; the
    probe after them is [isProcessRunning].  The child is started and
    released, never waited for. *)
Definition createBackgroundPortForward (e : ConnectEnv)
    (namespace serviceName podName localPort : string) (remotePort : Z)
    (kubeconfigPath : string) (w : World) : option error * World :=
  match executable e with
  | None => (Some ErrExecutable, w)
  | Some execPath =>
      match start e with
      | None => (Some ErrStartDaemon, w)
      | Some pid =>
          let w1 := log (EvSpawn pid (daemon_argv execPath kubeconfigPath
                                        namespace serviceName podName
                                        localPort remotePort)) w in
          (* Release; Sleep(800ms); Sleep(200ms) *)
          if negb (isProcessRunning (sys e) pid)
          then (Some (ErrDaemonExited pid), w1)
          else
            let conn := mkConn pid serviceName namespace localPort remotePort
                               podName kubeconfigPath "active" in
            match addConnection (fs_save e) conn (registry w1) with
            | (Some err, f') =>
                let w2 := with_registry f' w1 in
                let w3 := match os_FindProcess pid with
                          | Ok proc => log (EvSignal proc SIGKILL) w2
                          | Err _ => w2
                          end in
                (Some (ErrSaveConnInfo err), w3)
            | (None, f') =>
                (None, log (EvPrint (MsgStarted conn)) (with_registry f' w1))
            end
      end
  end.

(** [RunE] of [NewConnectCmd], behind cobra's [RangeArgs(0, 1)]. *)
Definition NewConnectCmd (e : ConnectEnv) (cl : ConnectCmdLine) (w : World)
  : option error * World :=
  match args cl with
  | [] => (None, log (EvPrint MsgHelp) w)
  | [servicename] =>
      match resolve e cl servicename with
      | Err err => (Some err, w)
      | Ok t =>
          let blocked :=
            match findConnection (fs (sys e)) servicename (t_namespace t)
                                 (registry w) with
            | Ok existing =>
                if String.eqb (Status existing) "active"
                then Some (ErrAlreadyExists (t_namespace t) servicename
                                            (LocalPort existing))
                else None
            | Err _ => None
            end in
          match blocked with
          | Some err => (Some err, w)
          | None =>
              if background cl
              then createBackgroundPortForward e (t_namespace t) servicename
                     (t_podName t) (t_localPort t) (t_remotePort t)
                     (t_kubeconfigPath t) w
              else createForegroundPortForward e (t_namespace t) (t_podName t)
                     (t_localPort t) (t_remotePort t) w
          end
      end
  | _ => (Some ErrUsage, w)
  end.

(** [RunE] of [NewConnectListCmd]: one pass over the loaded records; a
    record whose process is gone is marked through
    [updateConnectionStatus], whose error is dropped. *)
Fixpoint reconcile (e : SysEnv) (connections : list ConnectionInfo)
                   (active : slice ConnectionInfo) (f : file)
  : slice ConnectionInfo * file :=
  match connections with
  | [] => (active, f)
  | conn :: rest =>
      if isProcessRunning e (PID conn)
      then reconcile e rest (append active conn) f
      else reconcile e rest active
             (snd (updateConnectionStatus (fs e) (ServiceName conn)
                     (Namespace conn) "stopped" f))
  end.

Definition NewConnectListCmd (e : SysEnv) (w : World) : option error * World :=
  match loadConnections (fs e) (registry w) with
  | Err err => (Some (ErrLoadConnections err), w)
  | Ok connections =>
      let '(active, f') := reconcile e (elems connections) nil_slice (registry w) in
      (None, log (EvPrint (MsgConnections (elems active))) (with_registry f' w))
  end.

(* ------------------------------------------------------------------ *)
(** ** disconnect.go: teardown *)

Record DisconnectCmdLine : Type := mkDisconnectCmdLine {
  d_args : list string;
  d_namespace : string       (* the flag variable, default "default" *)
}.

(** Lines 55--68 of disconnect.go, shared by both ways of getting past
    the termination signal. *)
Definition remove_and_report (e : SysEnv) (servicename namespace : string)
                             (pid : Z) (w : World) : option error * World :=
  match removeConnection (fs e) servicename namespace (registry w) with
  | (Some err, f') => (Some (ErrRemoveConnection err), with_registry f' w)
  | (None, f') =>
      (None, log (EvPrint (MsgDisconnected namespace servicename pid))
                 (with_registry f' w))
  end.

(** [RunE] of [NewDisconnectCmd], behind cobra's [ExactArgs(1)]. *)
Definition NewDisconnectCmd (e : SysEnv) (cl : DisconnectCmdLine) (w : World)
  : option error * World :=
  match d_args cl with
  | [servicename] =>
      let namespace := if String.eqb (d_namespace cl) "" then "default"
                       else d_namespace cl in
      match findConnection (fs e) servicename namespace (registry w) with
      | Err _ => (Some (ErrNoSuchConnection namespace servicename), w)
      | Ok conn =>
          if negb (isProcessRunning e (PID conn))
          then
            (* the error of removeConnection is dropped *)
            let f' := snd (removeConnection (fs e) servicename namespace
                             (registry w)) in
            (None, log (EvPrint (MsgAlreadyStopped namespace servicename))
                       (with_registry f' w))
          else
            match os_FindProcess (PID conn) with
            | Err _ => (Some (ErrFindProcess (PID conn)), w)
            | Ok process =>
                let w1 := log (EvSignal process SIGTERM) w in
                if sigterm_ok e process
                then remove_and_report e servicename namespace (PID conn) w1
                else
                  let w2 := log (EvSignal process SIGKILL) w1 in
                  if sigkill_ok e process
                  then remove_and_report e servicename namespace (PID conn) w2
                  else (Some (ErrKillProcess (PID conn)), w2)
            end
      end
  | _ => (Some ErrUsage, w)
  end.

(* ------------------------------------------------------------------ *)
(** ** The daemon: entry point and runtime *)

(** The first [select] of [runPortForwardDaemon] wakes on one of three
    cases, the second on one of two.  The forwarding goroutine sends on
    [errChan] only a non-nil error; what the tunnel I/O reports is
    [ErrTunnel msg]. *)
Inductive StartEvent : Type :=
| TunnelReady                    (* <-readyChan *)
| TunnelStartError (msg : string) (* err := <-errChan *)
| ReadyTimeout.                  (* <-time.After(10 * time.Second) *)

Inductive RunEvent : Type :=
| TunnelError (msg : string)     (* err := <-errChan *)
| TermSignal.                    (* <-sigChan: SIGINT or SIGTERM *)

Record DaemonEnv : Type := mkDaemonEnv {
  dfs : FsEnv;
  dm_build_config_ok : string -> bool;
  getpid : Z;
  on_start : StartEvent;
  on_run : RunEvent
}.

(** [func runPortForwardDaemon] *)
Definition runPortForwardDaemon (e : DaemonEnv)
    (namespace podName localPort : string) (remotePort : Z)
    (serviceName : string) (w : World) : option error * World :=
  let w0 := log (EvTunnelStart namespace podName localPort remotePort) w in
  match on_start e with
  | TunnelReady =>
      let w1 := log (EvPrint (MsgDaemonStarted (getpid e))) w0 in
      match on_run e with
      | TunnelError msg =>
          let err := ErrTunnel msg in
          let w2 := log (EvPrint (MsgPortForwardError err)) w1 in
          let f' := snd (updateConnectionStatus (dfs e) serviceName namespace
                           "stopped" (registry w2)) in
          (Some err, with_registry f' w2)
      | TermSignal =>
          let w2 := log (EvPrint MsgDaemonStopping) w1 in
          let w3 := log EvTunnelStop w2 in
          let f' := snd (removeConnection (dfs e) serviceName namespace
                           (registry w3)) in
          (None, with_registry f' w3)
      end
  | TunnelStartError msg => (Some (ErrFailedToStart (ErrTunnel msg)), w0)
  | ReadyTimeout => (Some ErrReadyTimeout, w0)
  end.

(** The command line of [daemon portforward]: for each flag, the value
    given, or [None] when the flag is absent. *)
Record DaemonCmdLine : Type := mkDaemonCmdLine {
  flag_kubeconfig : option string;
  flag_namespace : option string;
  flag_service : option string;
  flag_pod : option string;
  flag_localport : option string;
  flag_remoteport : option string
}.

(** [cmd.Flags().StringVar(&v, name, dflt, usage)] *)
Definition StringVar (given : option string) (dflt : string) : string :=
  match given with
  | Some v => v
  | None => dflt
  end.

(** [RunE] of [NewDaemonPortForwardCmd] *)
Definition NewDaemonPortForwardCmd (e : DaemonEnv) (cl : DaemonCmdLine) (w : World)
  : option error * World :=
  let kubeconfig := StringVar (flag_kubeconfig cl) "" in
  let namespace := StringVar (flag_namespace cl) "default" in
  let service := StringVar (flag_service cl) "" in
  let pod := StringVar (flag_pod cl) "" in
  let localPort := StringVar (flag_localport cl) "" in
  let remotePort := StringVar (flag_remoteport cl) "" in
  if String.eqb kubeconfig "" || String.eqb service "" || String.eqb pod ""
     || String.eqb localPort "" || String.eqb remotePort ""
  then (Some (ErrMissingFlags kubeconfig service pod localPort remotePort), w)
  else if negb (dm_build_config_ok e kubeconfig)
  then (Some ErrBuildConfig, w)
  else match ParseInt remotePort 32 with
       | None => (Some ErrInvalidRemotePort, w)
       | Some remotePortInt =>
           runPortForwardDaemon e namespace pod localPort remotePortInt service w
       end.

(** Modelled from the spec: the [main] function is not among the sources.
    The daemon "exits with zero status" when its command returns nil and
    "with non-zero status" when it returns an error. *)
Definition exit_status (r : option error) : Z :=
  match r with
  | None => 0
  | Some _ => 1
  end.

(* ------------------------------------------------------------------ *)
(** ** Vocabulary of the properties *)

(** The records the registry file holds: those a load returns, none
    when the file is absent or does not parse. *)
Definition registry_records (f : file) : list ConnectionInfo :=
  match f with
  | Some (Text doc) =>
      match json_Unmarshal doc with
      | Some s => elems s
      | None => []
      end
  | _ => []
  end.

Definition key (c : ConnectionInfo) : string * string :=
  (ServiceName c, Namespace c).



(** A file system that answers every call of one run with success. *)
Definition fs_works (e : FsEnv) : Prop :=
  mkdir_ok e = true /\ read_ok e = true /\ write_out e = WriteOk.

Definition fs_works_write (e : FsEnv) : Prop :=
  mkdir_ok e = true /\ write_out e = WriteOk.

Definition fs_reads (e : FsEnv) : Prop :=
  mkdir_ok e = true /\ read_ok e = true.

(** A flag of the daemon that is absent from the command line or given
    the empty value. *)
Definition not_given (given : option string) : bool :=
  String.eqb (StringVar given "") "".

(** The scope a disconnect works on. *)
Definition disconnect_scope (cl : DisconnectCmdLine) : string :=
  if String.eqb (d_namespace cl) "" then "default" else d_namespace cl.

(** The commands that touch the registry, each with the environment of
    its run.  The daemon a connect has spawned is a step of its own,
    placed where the daemon ends: that is when it writes. *)
Inductive command : Type :=
| Connect (e : ConnectEnv) (cl : ConnectCmdLine)
| Disconnect (e : SysEnv) (cl : DisconnectCmdLine)
| ConnectList (e : SysEnv)
| Daemon (e : DaemonEnv) (cl : DaemonCmdLine).

Definition run (c : command) (w : World) : World :=
  match c with
  | Connect e cl => snd (NewConnectCmd e cl w)
  | Disconnect e cl => snd (NewDisconnectCmd e cl w)
  | ConnectList e => snd (NewConnectListCmd e w)
  | Daemon e cl => snd (NewDaemonPortForwardCmd e cl w)
  end.


Definition run_all (cs : list command) (w : World) : World :=
  fold_left (fun w c => run c w) cs w.

Definition empty_registry : World := mkWorld None [].

(** The process table, as far as kill(2) looks at it. *)
Inductive ProcState : Type :=
| Running
| Zombie         (* terminated, not yet waited for by its parent *)
| NoProcess.     (* the pid is not in the table *)

(** kill(pid, sig) by the owner of the process fails (ESRCH) only when
    the pid is not in the table.  A zombie is in the table: the call
    returns 0, for signal 0 as for any other. *)
Definition kill_ok (st : ProcState) : bool :=
  match st with
  | NoProcess => false
  | Running | Zombie => true
  end.

(** The operating system over a process table. *)
Definition unix (table : Z -> ProcState) (f : FsEnv) : SysEnv :=
  mkSysEnv f (fun pid => kill_ok (table pid))
             (fun pid => kill_ok (table pid))
             (fun pid => kill_ok (table pid)).

(** The record of a daemon: its (service, namespace) and its PID. *)
Definition own_record (e : DaemonEnv) (service ns : string)
                      (c : ConnectionInfo) : Prop :=
  same_key service ns c = true /\ PID c = getpid e.

(** The wording of the specification for the duplicate check of connect:
    "an existing [active] record with the same (name, scope) ... and its
    PID is alive". *)
Definition spec_already_connected (e : SysEnv) (name scope : string)
                                  (l : list ConnectionInfo) : Prop :=
  exists c, In c l /\ same_key name scope c = true
            /\ Status c = "active" /\ isProcessRunning e (PID c) = true.


(* ------------------------------------------------------------------ *)
(** ** Sample environments and runs

    Concrete values on which the properties below are exercised. *)

Definition fs_good : FsEnv := mkFsEnv true true WriteOk.
Definition fs_no_write : FsEnv := mkFsEnv true true WriteRefused.
Definition fs_no_read : FsEnv := mkFsEnv true false WriteOk.

Definition nobody_alive (e : FsEnv) : SysEnv :=
  mkSysEnv e (fun _ => false) (fun _ => false) (fun _ => false).

Definition everybody_alive (e : FsEnv) : SysEnv :=
  mkSysEnv e (fun _ => true) (fun _ => true) (fun _ => true).

(** Processes that answer the probe and refuse SIGTERM. *)
Definition term_refused (e : FsEnv) : SysEnv :=
  mkSysEnv e (fun _ => true) (fun _ => false) (fun _ => true).

Definition db_service : Service := mkService [3306] [("app", "db")].

(** A cluster that knows one service, [db] in namespace [prod], with one
    pod, and an operating system [s] in which [cmd.Start] answers
    [child]. *)
Definition knows_db (ns name : string) : option Service :=
  if String.eqb ns "prod" && String.eqb name "db" then Some db_service
  else None.

Definition cluster (s : SysEnv) (child : option Z) : ConnectEnv :=
  mkConnectEnv s (fs s) (fun _ => true) "" "/home/op/.kube/config"
               (fun _ => true) true
               knows_db (fun _ _ => Some ["db-0"])
               (Some "/usr/local/bin/bugx") child FgStopped.

(** [bugx connect db -n prod -l 3307 -r 3306] *)
Definition connect_db : ConnectCmdLine :=
  mkConnectCmdLine ["db"] "" "prod" "3307" "3306" true.

(** [bugx disconnect db -n prod] *)
Definition disconnect_db : DisconnectCmdLine :=
  mkDisconnectCmdLine ["db"] "prod".

Definition db_record (pid : Z) (status : string) : ConnectionInfo :=
  mkConn pid "db" "prod" "3307" 3306 "db-0" "/home/op/.kube/config" status.

Definition web_record (pid : Z) : ConnectionInfo :=
  mkConn pid "web" "prod" "8081" 8080 "web-0" "/home/op/.kube/config" "active".

(** A world whose registry file holds the given records. *)
Definition holding (l : list ConnectionInfo) : World :=
  mkWorld (Some (Text (json_MarshalIndent (mk_slice l)))) [].

(** [bugx daemon portforward] as the supervisor invokes it, and the same
    without [--namespace]. *)
Definition daemon_db (ns : option string) : DaemonCmdLine :=
  mkDaemonCmdLine (Some "/home/op/.kube/config") ns (Some "db")
                  (Some "db-0") (Some "3307") (Some "3306").

Definition daemon_env (e : FsEnv) (r : RunEvent) : DaemonEnv :=
  mkDaemonEnv e (fun _ => true) 4242 TunnelReady r.

Definition after_connect (pid : Z) (w : World) : World :=
  snd (NewConnectCmd (cluster (everybody_alive fs_good) (Some pid)) connect_db w).

(** The end of the daemon [pid] of (db, prod) on a tunnel error. *)
Definition tunnel_fails (pid : Z) : command :=
  Daemon (mkDaemonEnv fs_good (fun _ => true) pid TunnelReady
                      (TunnelError "lost"))
         (daemon_db (Some "prod")).


(** connect, tunnel failure, connect: the second daemon, PID 4242, finds
    the "stopped" record of the first before its own. *)
Definition connect_fail_connect : list command :=
  [Connect (cluster (everybody_alive fs_good) (Some 1)) connect_db;
   tunnel_fails 1;
   Connect (cluster (everybody_alive fs_good) (Some 4242)) connect_db].

(** A cluster as above in which the registry cannot be read at the
    duplicate check and can be a second later. *)
Definition cluster_late_read (child : option Z) : ConnectEnv :=
  mkConnectEnv (everybody_alive fs_no_read) fs_good
               (fun _ => true) "" "/home/op/.kube/config"
               (fun _ => true) true
               knows_db (fun _ _ => Some ["db-0"])
               (Some "/usr/local/bin/bugx") child FgStopped.

(** [bugx connect db -n prod -r 3306 -l] with one byte FF for the local
    port, and the record a connect builds from it. *)
Definition byte_FF : string := String (ascii_of_N 255) "".

Definition raw_port_record : ConnectionInfo :=
  mkConn 4242 "db" "prod" byte_FF 3306 "db-0" "/home/op/.kube/config" "active".

(** A process table in which the child 4242 has terminated and has not
    been waited for. *)
Definition child_terminated (pid : Z) : ProcState :=
  if Z.eqb pid 4242 then Zombie else NoProcess.

(* ------------------------------------------------------------------ *)
(** ** Further vocabulary *)

From Stdlib Require DecimalPos.

(** A record with its status blanked: what [updateConnectionStatus]
    must leave alone. *)
Definition erase_status (c : ConnectionInfo) : ConnectionInfo :=
  with_status "" c.

(** What a listing does to a record: kept when its PID answers the
    probe, marked "stopped" otherwise. *)
Definition reclassify (e : SysEnv) (c : ConnectionInfo) : ConnectionInfo :=
  if isProcessRunning e (PID c) then c else with_status "stopped" c.

(** The command line of the child as the flag parser of the daemon
    command reads it: after the executable and the two command words, a
    sequence of [--name value] pairs, each value taken as it stands.
    Other shapes of command line are not represented ([None]). *)
Definition set_daemon_flag (name value : string) (cl : DaemonCmdLine)
  : option DaemonCmdLine :=
  if String.eqb name "--kubeconfig"
  then Some (mkDaemonCmdLine (Some value) (flag_namespace cl) (flag_service cl)
               (flag_pod cl) (flag_localport cl) (flag_remoteport cl))
  else if String.eqb name "--namespace"
  then Some (mkDaemonCmdLine (flag_kubeconfig cl) (Some value) (flag_service cl)
               (flag_pod cl) (flag_localport cl) (flag_remoteport cl))
  else if String.eqb name "--service"
  then Some (mkDaemonCmdLine (flag_kubeconfig cl) (flag_namespace cl) (Some value)
               (flag_pod cl) (flag_localport cl) (flag_remoteport cl))
  else if String.eqb name "--pod"
  then Some (mkDaemonCmdLine (flag_kubeconfig cl) (flag_namespace cl)
               (flag_service cl) (Some value) (flag_localport cl)
               (flag_remoteport cl))
  else if String.eqb name "--localport"
  then Some (mkDaemonCmdLine (flag_kubeconfig cl) (flag_namespace cl)
               (flag_service cl) (flag_pod cl) (Some value) (flag_remoteport cl))
  else if String.eqb name "--remoteport"
  then Some (mkDaemonCmdLine (flag_kubeconfig cl) (flag_namespace cl)
               (flag_service cl) (flag_pod cl) (flag_localport cl) (Some value))
  else None.

Fixpoint parse_flag_pairs (argv : list string) (cl : DaemonCmdLine)
  : option DaemonCmdLine :=
  match argv with
  | [] => Some cl
  | name :: value :: rest =>
      match set_daemon_flag name value cl with
      | Some cl' => parse_flag_pairs rest cl'
      | None => None
      end
  | [_] => None
  end.

Definition daemon_cmdline (argv : list string) : option DaemonCmdLine :=
  match argv with
  | _ :: "daemon" :: "portforward" :: flags =>
      parse_flag_pairs flags
        (mkDaemonCmdLine None None None None None None)
  | _ => None
  end.

(* ------------------------------------------------------------------ *)
(** * Properties *)

Unset Implicit Arguments.
Arguments coerce : simpl never.

(** ** Sample runs

    The scenarios of the specification, evaluated on the embedding. *)

(** connect with no existing record: one [active] record with the
    fields of the command line and the PID of the child. *)
Example connect_fresh :
  NewConnectCmd (cluster (everybody_alive fs_good) (Some 4242)) connect_db
                empty_registry
  = (None,
     mkWorld (Some (Text (json_MarshalIndent
                            (mk_slice [db_record 4242 "active"]))))
             [EvSpawn 4242
                (daemon_argv "/usr/local/bin/bugx" "/home/op/.kube/config"
                   "prod" "db" "db-0" "3307" 3306);
              EvPrint (MsgStarted (db_record 4242 "active"))]).
Proof. reflexivity. Qed.

(** connect twice in sequence: the second fails, one record remains. *)
Example connect_twice :
  fst (NewConnectCmd (cluster (everybody_alive fs_good) (Some 4243)) connect_db
                     (after_connect 4242 empty_registry))
  = Some (ErrAlreadyExists "prod" "db" "3307")
  /\ registry_records
       (registry (after_connect 4243 (after_connect 4242 empty_registry)))
     = [db_record 4242 "active"].
Proof. split; reflexivity. Qed.

(** disconnect on a live worker: SIGTERM, no record left for the key. *)
Example disconnect_live :
  NewDisconnectCmd (everybody_alive fs_good) disconnect_db
                   (holding [db_record 4242 "active"])
  = (None,
     mkWorld (Some (Text JNull))
             [EvSignal 4242 SIGTERM;
              EvPrint (MsgDisconnected "prod" "db" 4242)]).
Proof. reflexivity. Qed.

(** disconnect of a pair that is not in the registry: an error, nothing
    written. *)
Example disconnect_absent :
  NewDisconnectCmd (everybody_alive fs_good) disconnect_db
                   (holding [web_record 7])
  = (Some (ErrNoSuchConnection "prod" "db"), holding [web_record 7]).
Proof. reflexivity. Qed.

(** A listing after the worker was killed out of band marks its record
    "stopped" and shows nothing. *)
Example list_reclassifies :
  NewConnectListCmd (nobody_alive fs_good) (holding [db_record 4242 "active"])
  = (None,
     mkWorld (Some (Text (json_MarshalIndent
                            (mk_slice [db_record 4242 "stopped"]))))
             [EvPrint (MsgConnections [])]).
Proof. reflexivity. Qed.

(** ** The codec *)

(** Case analysis on an innermost scrutinee of a hypothesis. *)
Ltac break_inner H :=
  match type of H with
  | context [match ?x with _ => _ end] =>
      lazymatch x with
      | context [match _ with _ => _ end] => fail
      | _ => destruct x eqn:?
      end
  end.

Lemma string_app_assoc (a b c : string) : (a ++ b) ++ c = a ++ (b ++ c).
Proof. induction a as [|x a IH]; cbn; [reflexivity | now rewrite IH]. Qed.

Lemma string_length_app (a b : string) :
  String.length (a ++ b) = (String.length a + String.length b)%nat.
Proof. induction a as [|x a IH]; cbn; [reflexivity | now rewrite IH]. Qed.

Lemma continuation_spec n : forall s r rest,
  continuation n s = Some (r, rest) ->
  s = r ++ rest /\ forall t, continuation n (r ++ t) = Some (r, t).
Proof.
  induction n as [|n IH]; cbn; intros s r rest H.
  - injection H as <- <-. split; reflexivity.
  - destruct s as [|c s]; [discriminate|].
    destruct (between 128 191 c) eqn:Ec; [|discriminate].
    destruct (continuation n s) as [[r' rest']|] eqn:E; [|discriminate].
    injection H as <- <-. destruct (IH _ _ _ E) as [-> Ht].
    split; [reflexivity|]. intros t. cbn. now rewrite Ec, Ht.
Qed.

Lemma DecodeRune_spec s r rest :
  DecodeRuneInString s = Some (r, rest) ->
  s = r ++ rest
  /\ (0 < String.length r)%nat
  /\ forall t, DecodeRuneInString (r ++ t) = Some (r, t).
Proof.
  unfold DecodeRuneInString. destruct s as [|c0 s1]; [discriminate|].
  destruct (byte c0 <? 128)%N eqn:E0.
  - intros H; injection H as <- <-.
    split; [reflexivity|]. split; [cbn; lia|].
    intros t. cbn [String.append]. now rewrite E0.
  - destruct (leading c0) as [[[size lo] hi]|] eqn:El; [|discriminate].
    destruct s1 as [|c1 s2]; [discriminate|].
    destruct (between lo hi c1) eqn:E1; [|discriminate].
    destruct (continuation (size - 2) s2) as [[r' rest']|] eqn:Ec;
      [|discriminate].
    intros H; injection H as <- <-.
    destruct (continuation_spec _ _ _ _ Ec) as [-> Ht].
    split; [reflexivity|]. split; [cbn; lia|].
    intros t. cbn [String.append]. now rewrite E0, El, E1, Ht.
Qed.

Lemma DecodeRune_replacement t :
  DecodeRuneInString (replacement ++ t) = Some (replacement, t).
Proof. reflexivity. Qed.

Lemma coerce_runes_fuel n : forall m s,
  (String.length s <= n)%nat -> (String.length s <= m)%nat ->
  coerce_runes n s = coerce_runes m s.
Proof.
  induction n as [|n IH]; intros m s Hn Hm.
  - destruct s; [|cbn in Hn; lia]. now destruct m.
  - destruct m as [|m]; [destruct s; [reflexivity | cbn in Hm; lia]|].
    destruct s as [|c tail]; [reflexivity|].
    cbn [coerce_runes].
    destruct (DecodeRuneInString (String c tail)) as [[r rest]|] eqn:E.
    + destruct (DecodeRune_spec _ _ _ E) as (Hs & Hr & _).
      apply (f_equal String.length) in Hs.
      rewrite string_length_app in Hs. cbn in Hs, Hn, Hm.
      f_equal. apply IH; lia.
    + cbn in Hn, Hm. f_equal. apply IH; lia.
Qed.

Lemma coerce_rune r t :
  (0 < String.length r)%nat ->
  DecodeRuneInString (r ++ t) = Some (r, t) ->
  coerce (r ++ t) = r ++ coerce t.
Proof.
  intros Hr Hd. unfold coerce. rewrite string_length_app.
  destruct (String.length r) as [|k] eqn:Ek; [lia|].
  cbn [Nat.add coerce_runes].
  destruct (r ++ t) as [|c tail] eqn:Ert.
  - apply (f_equal String.length) in Ert.
    rewrite string_length_app in Ert. cbn in Ert. lia.
  - rewrite Hd. f_equal. apply coerce_runes_fuel; lia.
Qed.

Lemma coerce_invalid c tail :
  DecodeRuneInString (String c tail) = None ->
  coerce (String c tail) = replacement ++ coerce tail.
Proof. intros Hd. unfold coerce. cbn [String.length coerce_runes]. now rewrite Hd. Qed.

Lemma coerce_idempotent s : coerce (coerce s) = coerce s.
Proof.
  remember (String.length s) as n eqn:Hn.
  revert s Hn. induction n as [n IH] using lt_wf_ind. intros s Hn.
  destruct s as [|c tail]; [reflexivity|].
  destruct (DecodeRuneInString (String c tail)) as [[r rest]|] eqn:E.
  - destruct (DecodeRune_spec _ _ _ E) as (Hs & Hr & Ht).
    rewrite Hs. rewrite (coerce_rune _ _ Hr (Ht rest)).
    rewrite (coerce_rune _ _ Hr (Ht _)). f_equal.
    apply (IH (String.length rest)); [|reflexivity].
    subst n. rewrite Hs, string_length_app. lia.
  - rewrite (coerce_invalid _ _ E).
    rewrite (coerce_rune replacement _ ltac:(cbn; lia) (DecodeRune_replacement _)).
    f_equal. apply (IH (String.length tail)); [|reflexivity].
    subst n. cbn. lia.
Qed.

Lemma ValidString_coerce s : ValidString (coerce s) = true.
Proof. unfold ValidString. rewrite coerce_idempotent. apply String.eqb_refl. Qed.

Lemma ValidString_iff s : ValidString s = true <-> coerce s = s.
Proof. apply String.eqb_eq. Qed.


Lemma conn_text_iff c : conn_text c = true <-> coerced c = c.
Proof.
  destruct c as [pid sn ns lp rp pn kc st]. unfold conn_text, coerced; cbn.
  rewrite !andb_true_iff, !ValidString_iff. split.
  - intros [[[[[-> ->] ->] ->] ->] ->]. reflexivity.
  - intros H. injection H as H1 H2 H3 H4 H5 H6.
    repeat split; assumption.
Qed.

Lemma conn_text_coerced c : conn_text (coerced c) = true.
Proof.
  unfold conn_text, coerced; cbn. now rewrite !ValidString_coerce.
Qed.

Lemma coerced_idempotent c : coerced (coerced c) = coerced c.
Proof. apply conn_text_iff, conn_text_coerced. Qed.

Lemma conn_in_range_coerced c : conn_in_range (coerced c) = conn_in_range c.
Proof. reflexivity. Qed.

Lemma stored_in_range l :
  forallb conn_stored l = true -> forallb conn_in_range l = true.
Proof.
  rewrite !forallb_forall. intros H c Hc.
  apply H in Hc. now apply andb_true_iff in Hc.
Qed.

Lemma conn_stored_split l :
  forallb conn_stored l = true
  <-> forallb conn_in_range l = true /\ forallb conn_text l = true.
Proof.
  induction l as [|c l IH]; cbn; [tauto|].
  unfold conn_stored at 1. rewrite !andb_true_iff, IH. tauto.
Qed.

Lemma stored_coerced l :
  forallb conn_stored l = true -> map coerced l = l.
Proof.
  induction l as [|c l IH]; cbn; [reflexivity|].
  rewrite andb_true_iff. unfold conn_stored at 1. rewrite andb_true_iff.
  intros [[_ Hc] Hl]. apply conn_text_iff in Hc. now rewrite Hc, IH.
Qed.

Lemma coerced_stored l :
  forallb conn_in_range l = true -> forallb conn_stored (map coerced l) = true.
Proof.
  induction l as [|c l IH]; cbn; [reflexivity|].
  rewrite andb_true_iff. intros [Hc Hl]. unfold conn_stored at 1.
  now rewrite conn_in_range_coerced, Hc, conn_text_coerced, IH.
Qed.

(** What is written for a record reads back as the record with its
    strings coerced. *)
Lemma unmarshal_marshal_conn (c : ConnectionInfo) :
  unmarshal_conn (marshal_conn c)
  = if conn_in_range c then Some (coerced c) else None.
Proof.
  destruct c as [pid sn ns lp rp pn kc st].
  unfold conn_in_range, coerced; cbn.
  destruct (in_int pid); cbn; [|reflexivity].
  destruct (in_int32 rp); [|reflexivity].
  now rewrite !coerce_idempotent.
Qed.

Lemma unmarshal_marshal_items (l : list ConnectionInfo) :
  unmarshal_items (map marshal_conn l)
  = if forallb conn_in_range l then Some (map coerced l) else None.
Proof.
  induction l as [|c l IH]; [reflexivity|].
  cbn [map unmarshal_items forallb].
  rewrite unmarshal_marshal_conn, IH.
  destruct (conn_in_range c), (forallb conn_in_range l); reflexivity.
Qed.

Lemma unmarshal_marshal (s : slice ConnectionInfo) :
  json_Unmarshal (json_MarshalIndent s)
  = if forallb conn_in_range (elems s) then Some (coerced_slice s) else None.
Proof.
  destruct s as [|l]; [reflexivity|].
  cbn [json_MarshalIndent json_Unmarshal elems coerced_slice].
  rewrite unmarshal_marshal_items.
  destruct (forallb conn_in_range l); reflexivity.
Qed.

Lemma elems_coerced_slice s : elems (coerced_slice s) = map coerced (elems s).
Proof. now destruct s. Qed.

Lemma coerced_slice_stored s :
  forallb conn_stored (elems s) = true -> coerced_slice s = s.
Proof.
  destruct s as [|l]; [reflexivity|]. cbn. intros H.
  now rewrite (stored_coerced _ H).
Qed.

(** What the decoder stores keeps a record within the values a load can
    return. *)
Lemma set_field_stored f v c c' :
  set_field f v c = Some c' ->
  conn_stored c = true -> conn_stored c' = true.
Proof.
  unfold conn_stored, conn_in_range, conn_text.
  destruct c as [pid sn ns lp rp pn kc st].
  destruct v, f; cbn; intros H R;
    try discriminate; try (injection H as <-; exact R);
    try (injection H as <-; cbn;
         rewrite !andb_true_iff in *; rewrite ?ValidString_coerce; tauto).
  - destruct (in_int n) eqn:E; [|discriminate].
    injection H as <-; cbn.
    rewrite !andb_true_iff in *. tauto.
  - destruct (in_int32 n) eqn:E; [|discriminate].
    injection H as <-; cbn.
    rewrite !andb_true_iff in *. tauto.
Qed.

Lemma unmarshal_members_stored ms : forall c c',
  unmarshal_members ms c = Some c' ->
  conn_stored c = true -> conn_stored c' = true.
Proof.
  induction ms as [|[k v] ms IH]; cbn; intros c c' H R.
  - now injection H as <-.
  - destruct (lookup_field k) as [f|]; [|eauto].
    destruct (set_field f v c) as [c1|] eqn:E; [|discriminate].
    eauto using set_field_stored.
Qed.

Lemma unmarshal_conn_stored j c :
  unmarshal_conn j = Some c -> conn_stored c = true.
Proof.
  destruct j; cbn; intros H; try discriminate.
  - now injection H as <-.
  - eapply unmarshal_members_stored; [exact H|reflexivity].
Qed.

Lemma unmarshal_items_stored items : forall l,
  unmarshal_items items = Some l -> forallb conn_stored l = true.
Proof.
  induction items as [|j items IH]; cbn; intros l H.
  - now injection H as <-.
  - destruct (unmarshal_conn j) as [c|] eqn:Ec; [|discriminate].
    destruct (unmarshal_items items) as [cs|]; [|discriminate].
    injection H as <-; cbn.
    now rewrite (unmarshal_conn_stored _ _ Ec), IH.
Qed.

Lemma json_Unmarshal_stored j s :
  json_Unmarshal j = Some s -> forallb conn_stored (elems s) = true.
Proof.
  destruct j; cbn; intros H; try discriminate.
  - now injection H as <-.
  - destruct (unmarshal_items items) as [cs|] eqn:E; [|discriminate].
    injection H as <-. eauto using unmarshal_items_stored.
Qed.

(** ** Loading and saving *)

Lemma elems_fold_append {A} (l : list A) : forall s,
  elems (fold_left append l s) = (elems s ++ l)%list.
Proof.
  induction l as [|x l IH]; intros s; cbn.
  - now rewrite app_nil_r.
  - rewrite IH. cbn. now rewrite <- app_assoc.
Qed.

Lemma elems_collect {A} (l : list A) : elems (collect l) = l.
Proof. unfold collect. now rewrite elems_fold_append. Qed.

Lemma load_inv e f s :
  loadConnections e f = Ok s ->
  fs_reads e /\ elems s = registry_records f
  /\ forallb conn_stored (elems s) = true.
Proof.
  unfold loadConnections, os_ReadFile, fs_reads, registry_records.
  destruct (mkdir_ok e); cbn; [|discriminate].
  destruct (read_ok e); [|discriminate].
  destruct f as [[doc| |]|]; intros H; try discriminate.
  - destruct (json_Unmarshal doc) as [s'|] eqn:E; [|discriminate].
    injection H as <-. eauto using json_Unmarshal_stored.
  - now injection H as <-.
  - now injection H as <-.
Qed.

Lemma load_records e f s :
  loadConnections e f = Ok s -> elems s = registry_records f.
Proof. intros H. now apply load_inv in H. Qed.

(** A load depends on the environment only through the directory and
    read answers. *)
Lemma load_env e e' f :
  mkdir_ok e = mkdir_ok e' -> read_ok e = read_ok e' ->
  loadConnections e f = loadConnections e' f.
Proof.
  unfold loadConnections, os_ReadFile. now intros -> ->.
Qed.

Lemma load_range e f s :
  loadConnections e f = Ok s -> forallb conn_in_range (elems s) = true.
Proof. intros H. apply load_inv in H as (_ & _ & H). now apply stored_in_range. Qed.

Lemma load_written e s :
  fs_reads e -> forallb conn_in_range (elems s) = true ->
  loadConnections e (Some (Text (json_MarshalIndent s))) = Ok (coerced_slice s).
Proof.
  intros [Hm Hr] R. unfold loadConnections, os_ReadFile.
  rewrite Hm, Hr; cbn. now rewrite unmarshal_marshal, R.
Qed.

(** Records that came from a load are written and read back as they
    are. *)
Lemma load_rewritten e s :
  fs_reads e -> forallb conn_stored (elems s) = true ->
  loadConnections e (Some (Text (json_MarshalIndent s))) = Ok s.
Proof.
  intros Hr R. rewrite (load_written _ _ Hr (stored_in_range _ R)).
  now rewrite coerced_slice_stored.
Qed.

Lemma records_written s :
  registry_records (Some (Text (json_MarshalIndent s)))
  = if forallb conn_in_range (elems s) then map coerced (elems s) else [].
Proof.
  unfold registry_records. rewrite unmarshal_marshal.
  destruct (forallb conn_in_range (elems s)); [|reflexivity].
  apply elems_coerced_slice.
Qed.

Lemma records_rewritten s :
  forallb conn_stored (elems s) = true ->
  registry_records (Some (Text (json_MarshalIndent s))) = elems s.
Proof.
  intros R. rewrite records_written, (stored_in_range _ R).
  now apply stored_coerced.
Qed.

Lemma records_appended s conn :
  forallb conn_stored (elems s) = true ->
  conn_in_range conn = true ->
  registry_records (Some (Text (json_MarshalIndent (append s conn))))
  = (elems s ++ [coerced conn])%list.
Proof.
  intros Hs Hc. rewrite records_written. cbn [elems append].
  rewrite forallb_app, (stored_in_range _ Hs). cbn [forallb].
  rewrite Hc. cbn. now rewrite map_app, (stored_coerced _ Hs).
Qed.

(** The records of a file are records a load can return. *)
Lemma registry_records_stored f :
  forallb conn_stored (registry_records f) = true.
Proof.
  unfold registry_records. destruct f as [[doc| |]|]; try reflexivity.
  destruct (json_Unmarshal doc) as [s|] eqn:E; [|reflexivity].
  now apply json_Unmarshal_stored in E.
Qed.

(** What a save leaves in the file, by outcome of the write. *)
Lemma save_ok e s f :
  fs_works_write e ->
  saveConnections e s f = (None, Some (Text (json_MarshalIndent s))).
Proof.
  intros [Hm Hw]. unfold saveConnections, os_WriteFile.
  now rewrite Hm, Hw.
Qed.

Lemma save_inv e s f f' :
  saveConnections e s f = (None, f') ->
  fs_works_write e /\ f' = Some (Text (json_MarshalIndent s)).
Proof.
  unfold saveConnections, os_WriteFile, fs_works_write.
  destruct (mkdir_ok e); cbn; [|discriminate].
  destruct (write_out e); intros H; try discriminate.
  now injection H as <-.
Qed.

Lemma save_file_cases e s f :
  let f' := snd (saveConnections e s f) in
  f' = f \/ f' = Some Blank \/ f' = Some Corrupt
  \/ f' = Some (Text (json_MarshalIndent s)).
Proof.
  unfold saveConnections, os_WriteFile.
  destruct (mkdir_ok e); cbn; [|now left].
  destruct (write_out e); cbn; auto.
Qed.

(** ** The registry operations *)

Lemma same_key_iff name ns c :
  same_key name ns c = true <-> key c = (name, ns).
Proof.
  unfold same_key, key. rewrite andb_true_iff, !String.eqb_eq.
  split; [intros [-> ->]; reflexivity | intros H; now injection H].
Qed.

(** The test of the loop of [removeConnection] is the negation of the
    test of [findConnection]. *)
Lemma keep_test name ns c :
  negb (String.eqb (ServiceName c) name) || negb (String.eqb (Namespace c) ns)
  = negb (same_key name ns c).
Proof. unfold same_key. now rewrite negb_andb. Qed.

Definition others (name ns : string) (l : list ConnectionInfo)
  : list ConnectionInfo :=
  filter (fun c => negb (same_key name ns c)) l.

Lemma remove_unfold e name ns f :
  removeConnection e name ns f
  = match loadConnections e f with
    | Err err => (Some err, f)
    | Ok s => saveConnections e (collect (others name ns (elems s))) f
    end.
Proof.
  unfold removeConnection, others.
  destruct (loadConnections e f); [|reflexivity].
  do 2 f_equal. apply filter_ext. intros c. apply keep_test.
Qed.

Lemma forallb_filter {A} (p q : A -> bool) l :
  forallb p l = true -> forallb p (filter q l) = true.
Proof.
  rewrite !forallb_forall. intros H x Hx.
  apply filter_In in Hx. now apply H.
Qed.

Lemma find_load e name ns f c :
  findConnection e name ns f = Ok c ->
  exists s, loadConnections e f = Ok s
            /\ find (same_key name ns) (elems s) = Some c.
Proof.
  unfold findConnection.
  destruct (loadConnections e f) as [s|]; [|discriminate].
  destruct (find _ _) eqn:E; [|discriminate].
  intros H; injection H as <-. eauto.
Qed.


(** ** The invariant of the registry under the steady steps *)















Lemma foreground_registry e ns pod lp rp w :
  registry (snd (createForegroundPortForward e ns pod lp rp w)) = registry w.
Proof.
  unfold createForegroundPortForward. now destruct (foreground e).
Qed.

(** The scope of a resolved target. *)
Lemma resolve_scope e cl name t :
  resolve e cl name = Ok t ->
  t_namespace t = (if String.eqb (namespace cl) "" then "default"
                   else namespace cl).
Proof.
  unfold resolve. intros H.
  repeat break_inner H; try discriminate; now injection H as <-.
Qed.



Lemma remove_and_report_registry e name ns pid w :
  registry (snd (remove_and_report e name ns pid w))
  = snd (removeConnection (fs e) name ns (registry w)).
Proof.
  unfold remove_and_report.
  now destruct (removeConnection _ _ _ _) as [[err|] f'].
Qed.










(** The same happens without any daemon when the registry cannot be read
    at the duplicate check of a second connect (the error of
    [findConnection] is dropped there) and can be read a second later, in
    [addConnection]. *)
Remark two_active_after_unread_check :
  registry_records
    (registry
       (run_all [Connect (cluster (everybody_alive fs_good) (Some 1)) connect_db;
                 Connect (cluster_late_read (Some 2)) connect_db]
                empty_registry))
  = [db_record 1 "active"; db_record 2 "active"].
Proof. vm_compute. reflexivity. Qed.

(** ** connect: the duplicate check *)

Lemma find_iff e name ns f c :
  findConnection e name ns f = Ok c
  <-> fs_reads e /\ find (same_key name ns) (registry_records f) = Some c.
Proof.
  split.
  - intros H. apply find_load in H as (s & Hl & Hf).
    apply load_inv in Hl as (Hr & <- & _). now split.
  - intros [[Hm Hr] Hf].
    unfold findConnection, loadConnections, os_ReadFile.
    rewrite Hm, Hr; cbn.
    unfold registry_records in Hf.
    destruct f as [[doc| |]|]; try discriminate.
    destruct (json_Unmarshal doc); [|discriminate].
    now rewrite Hf.
Qed.

(** [resolve] never reports "already exists". *)
Lemma resolve_not_already e cl name ns n lp :
  resolve e cl name <> Err (ErrAlreadyExists ns n lp).
Proof.
  unfold resolve. intros H.
  repeat break_inner H; discriminate.
Qed.

Lemma background_not_already e ns name pod lp rp kc w ns' n' lp' :
  fst (createBackgroundPortForward e ns name pod lp rp kc w)
  <> Some (ErrAlreadyExists ns' n' lp').
Proof.
  unfold createBackgroundPortForward.
  destruct (executable e); [|discriminate].
  destruct (start e) as [pid|]; [|discriminate].
  destruct (negb (isProcessRunning (sys e) pid)); [discriminate|].
  destruct (addConnection _ _ _) as [[err|] f']; discriminate.
Qed.

Lemma foreground_not_already e ns pod lp rp w ns' n' lp' :
  fst (createForegroundPortForward e ns pod lp rp w)
  <> Some (ErrAlreadyExists ns' n' lp').
Proof.
  unfold createForegroundPortForward. destruct (foreground e); discriminate.
Qed.

Lemma unblocked_not_already e cl t name w ns' n' lp' :
  fst (if background cl
       then createBackgroundPortForward e (t_namespace t) name (t_podName t)
              (t_localPort t) (t_remotePort t) (t_kubeconfigPath t) w
       else createForegroundPortForward e (t_namespace t) (t_podName t)
              (t_localPort t) (t_remotePort t) w)
  <> Some (ErrAlreadyExists ns' n' lp').
Proof.
  destruct (background cl);
    auto using background_not_already, foreground_not_already.
Qed.

(** C1, as the code has it.  connect fails with "already exists"
    exactly when the command line names one service, the target resolves,
    the registry can be read and its first record for the (name, scope)
    has status [active]; whether the recorded PID is alive plays no part.
    When it fails this way nothing is spawned and the world is as
    before. *)
Theorem connect_already_exists_iff e cl w ns name lp :
  (fst (NewConnectCmd e cl w) = Some (ErrAlreadyExists ns name lp)
   <-> exists t c,
         args cl = [name] /\ resolve e cl name = Ok t /\ t_namespace t = ns
         /\ fs_reads (fs (sys e))
         /\ find (same_key name ns) (registry_records (registry w)) = Some c
         /\ Status c = "active" /\ LocalPort c = lp)
  /\ (fst (NewConnectCmd e cl w) = Some (ErrAlreadyExists ns name lp)
      -> snd (NewConnectCmd e cl w) = w).
Proof.
  unfold NewConnectCmd.
  destruct (args cl) as [|n [|? ?]] eqn:Ea; cbn [fst snd].
  - split; [split|]; try discriminate.
    intros (t & c & H & _); discriminate.
  - destruct (resolve e cl n) as [t|err] eqn:Er; cbn [fst snd].
    + destruct (findConnection (fs (sys e)) n (t_namespace t) (registry w))
        as [existing|err] eqn:Ef.
      * destruct (String.eqb (Status existing) "active") eqn:Es; cbn [fst snd].
        -- split; [split|reflexivity].
           ++ intros H; injection H as <- <- <-.
              apply find_iff in Ef as [Hr Hf].
              apply String.eqb_eq in Es.
              exists t, existing. repeat split; auto; apply Hr.
           ++ intros (t' & c & H & Hres & Hns & Hr & Hf & Hs & Hlp).
              injection H as <-. rewrite Er in Hres; injection Hres as <-.
              subst ns. assert (Hc : findConnection (fs (sys e)) n
                                       (t_namespace t) (registry w) = Ok c)
                by now apply find_iff.
              rewrite Ef in Hc; injection Hc as <-. now subst lp.
        -- split; [split|].
           ++ intros H. now apply unblocked_not_already in H.
           ++ intros (t' & c & H & Hres & Hns & Hr & Hf & Hs & Hlp).
              injection H as <-. rewrite Er in Hres; injection Hres as <-.
              subst ns. assert (Hc : findConnection (fs (sys e)) n
                                       (t_namespace t) (registry w) = Ok c)
                by now apply find_iff.
              rewrite Ef in Hc; injection Hc as <-.
              rewrite Hs in Es. discriminate.
           ++ intros H. now apply unblocked_not_already in H.
      * split; [split|].
        -- intros H. now apply unblocked_not_already in H.
        -- intros (t' & c & H & Hres & Hns & Hr & Hf & Hs & Hlp).
           injection H as <-. rewrite Er in Hres; injection Hres as <-.
           subst ns. assert (Hc : findConnection (fs (sys e)) n
                                    (t_namespace t) (registry w) = Ok c)
             by now apply find_iff.
           rewrite Ef in Hc; discriminate.
        -- intros H. now apply unblocked_not_already in H.
    + split; [split|reflexivity].
      * intros H; injection H as ->.
        now apply resolve_not_already in Er.
      * intros (t' & c & H & Hres & _).
        injection H as <-. rewrite Er in Hres; discriminate.
  - split; [split|]; try discriminate.
    intros (t & c & H & _); discriminate.
Qed.

(** A run to which C1 applies: the record of (db, prod) is [active] and
    its process is alive. *)
Lemma connect_already_exists_iff_witness :
  fst (NewConnectCmd (cluster (everybody_alive fs_good) (Some 4242)) connect_db
               (holding [web_record 7; db_record 1000 "active"]))
  = Some (ErrAlreadyExists "prod" "db" "3307")
  /\ snd (NewConnectCmd (cluster (everybody_alive fs_good) (Some 4242)) connect_db
                 (holding [web_record 7; db_record 1000 "active"]))
     = holding [web_record 7; db_record 1000 "active"].
Proof.
  destruct (connect_already_exists_iff
              (cluster (everybody_alive fs_good) (Some 4242)) connect_db
              (holding [web_record 7; db_record 1000 "active"])
              "prod" "db" "3307") as [[_ Hblocked] Hsame].
  assert (H : fst (NewConnectCmd (cluster (everybody_alive fs_good) (Some 4242))
                     connect_db
                     (holding [web_record 7; db_record 1000 "active"]))
              = Some (ErrAlreadyExists "prod" "db" "3307")).
  { apply Hblocked.
    exists (mkTarget "/home/op/.kube/config" "prod" "db-0" "3307" 3306),
           (db_record 1000 "active").
    repeat split; reflexivity. }
  split; [exact H | exact (Hsame H)].
Defined.

(** C1, as the claim has it, fails: with one [active] record for
    (db, prod) whose PID answers no probe, connect still reports
    "already exists", although no [active] record for the pair has a
    live PID. *)
Lemma connect_blocked_by_dead_record :
  fst (NewConnectCmd (cluster (nobody_alive fs_good) (Some 4242)) connect_db
               (holding [db_record 1000 "active"]))
  = Some (ErrAlreadyExists "prod" "db" "3307")
  /\ ~ spec_already_connected (nobody_alive fs_good) "db" "prod"
         (registry_records (registry (holding [db_record 1000 "active"]))).
Proof.
  split; [reflexivity|].
  intros (c & _ & _ & _ & Halive). discriminate Halive.
Qed.

(** ** The daemon entry point: mandatory flags *)

Lemma daemon_runtime_not_missing e ns pod lp rp service w k s' p l r :
  fst (runPortForwardDaemon e ns pod lp rp service w)
  <> Some (ErrMissingFlags k s' p l r).
Proof.
  unfold runPortForwardDaemon.
  destruct (on_start e); [destruct (on_run e)| |]; discriminate.
Qed.

(** C2, as the code has it.  The daemon entry point fails with "missing
    required flags", before anything else runs and leaving the world as
    it is, exactly when one of kubeconfig, service, pod, localport,
    remoteport is absent or empty.  The namespace is not among them: an
    absent [--namespace] stands for "default". *)
Theorem daemon_missing_flags_iff e cl w :
  ((exists k s p l r,
       fst (NewDaemonPortForwardCmd e cl w) = Some (ErrMissingFlags k s p l r))
   <-> not_given (flag_kubeconfig cl) = true
       \/ not_given (flag_service cl) = true
       \/ not_given (flag_pod cl) = true
       \/ not_given (flag_localport cl) = true
       \/ not_given (flag_remoteport cl) = true)
  /\ ((exists k s p l r,
         fst (NewDaemonPortForwardCmd e cl w) = Some (ErrMissingFlags k s p l r))
      -> snd (NewDaemonPortForwardCmd e cl w) = w)
  /\ (flag_namespace cl = None ->
      NewDaemonPortForwardCmd e cl w
      = NewDaemonPortForwardCmd e
          (mkDaemonCmdLine (flag_kubeconfig cl) (Some "default")
             (flag_service cl) (flag_pod cl) (flag_localport cl)
             (flag_remoteport cl)) w).
Proof.
  unfold NewDaemonPortForwardCmd, not_given.
  split; [|split].
  - rewrite <- !orb_true_iff, !orb_assoc.
    destruct (_ || _ || _ || _ || _)%bool; cbn [fst].
    + split; eauto 6.
    + split; [|discriminate].
      intros (k & s & p & l & r & H). exfalso. revert H.
      destruct (negb _); [discriminate|].
      destruct (ParseInt _ _); [|discriminate].
      apply daemon_runtime_not_missing.
  - destruct (_ || _ || _ || _ || _)%bool; cbn [fst snd]; [reflexivity|].
    intros (k & s & p & l & r & H). exfalso. revert H.
    destruct (negb _); [discriminate|].
    destruct (ParseInt _ _); [|discriminate].
    apply daemon_runtime_not_missing.
  - intros Hns. cbn. now rewrite Hns.
Qed.

(** A run to which C2 applies: [--service] is absent. *)
Lemma daemon_missing_flags_iff_witness :
  (exists k s p l r,
      fst (NewDaemonPortForwardCmd (daemon_env fs_good TermSignal)
             (mkDaemonCmdLine (Some "/home/op/.kube/config") (Some "prod") None
                (Some "db-0") (Some "3307") (Some "3306"))
             (holding [db_record 4242 "active"]))
      = Some (ErrMissingFlags k s p l r))
  /\ snd (NewDaemonPortForwardCmd (daemon_env fs_good TermSignal)
            (mkDaemonCmdLine (Some "/home/op/.kube/config") (Some "prod") None
               (Some "db-0") (Some "3307") (Some "3306"))
            (holding [db_record 4242 "active"]))
     = holding [db_record 4242 "active"].
Proof.
  destruct (daemon_missing_flags_iff (daemon_env fs_good TermSignal)
              (mkDaemonCmdLine (Some "/home/op/.kube/config") (Some "prod") None
                 (Some "db-0") (Some "3307") (Some "3306"))
              (holding [db_record 4242 "active"]))
    as ([_ Hmissing] & Hsame & _).
  assert (H := Hmissing (or_intror (or_introl eq_refl))).
  split; [exact H | exact (Hsame H)].
Defined.

(** C2, as the claim has it, fails for the namespace: without
    [--namespace] and with the other flags given, the entry point reports
    no argument error and the tunnel is started, in scope "default". *)
Lemma daemon_runs_without_namespace :
  flag_namespace (daemon_db None) = None
  /\ fst (NewDaemonPortForwardCmd (daemon_env fs_good TermSignal) (daemon_db None)
            (holding [db_record 4242 "active"])) = None
  /\ In (EvTunnelStart "default" "db-0" "3307" 3306)
        (trace (snd (NewDaemonPortForwardCmd (daemon_env fs_good TermSignal)
                       (daemon_db None) (holding [db_record 4242 "active"])))).
Proof.
  split; [reflexivity|]. split; [reflexivity|].
  cbn. now left.
Qed.

(** ** connect: spawning the worker *)

Lemma emitted_none {A} (l evs : list A) : l = (l ++ evs)%list -> evs = [].
Proof.
  intros H. rewrite <- (app_nil_r l) in H at 1.
  now apply app_inv_head in H.
Qed.

Lemma emitted_one {A} (l evs : list A) x :
  (l ++ [x])%list = (l ++ evs)%list -> evs = [x].
Proof. intros H. now apply app_inv_head in H. Qed.

Lemma emitted_two {A} (l evs : list A) x y :
  ((l ++ [x]) ++ [y])%list = (l ++ evs)%list -> evs = [x; y].
Proof.
  intros H. rewrite <- app_assoc in H. now apply app_inv_head in H.
Qed.

(** The runs of [createBackgroundPortForward], by what the environment
    answers. *)
Lemma background_spec e ns name pod lp rp kc w :
  createBackgroundPortForward e ns name pod lp rp kc w
  = match executable e, start e with
    | None, _ => (Some ErrExecutable, w)
    | Some _, None => (Some ErrStartDaemon, w)
    | Some execPath, Some pid =>
        let spawn := EvSpawn pid (daemon_argv execPath kc ns name pod lp rp) in
        let conn := mkConn pid name ns lp rp pod kc "active" in
        if isProcessRunning (sys e) pid
        then match addConnection (fs_save e) conn (registry w) with
             | (Some err, f') =>
                 (Some (ErrSaveConnInfo err),
                  mkWorld f' (trace w ++ [spawn; EvSignal pid SIGKILL]))
             | (None, f') =>
                 (None,
                  mkWorld f' (trace w ++ [spawn; EvPrint (MsgStarted conn)]))
             end
        else (Some (ErrDaemonExited pid), mkWorld (registry w) (trace w ++ [spawn]))
    end.
Proof.
  unfold createBackgroundPortForward.
  destruct (executable e) as [execPath|]; [|reflexivity].
  destruct (start e) as [pid|]; [|reflexivity].
  cbn zeta. destruct (isProcessRunning (sys e) pid); cbn [negb]; [|reflexivity].
  cbn [registry log].
  destruct (addConnection _ _ _) as [[err|] f'];
    unfold os_FindProcess, log, with_registry; cbn [registry trace];
    now rewrite <- app_assoc.
Qed.

(** X22. What connect does when the probe fails.  When a connect has
    spawned the worker ([cmd.Start] returned nil and its event is among
    those the run emitted) and the worker's pid does not answer the
    probe after the wait, connect returns the "daemon process failed to
    start" error, the registry file is as it was, and the spawn is all
    that happened. *)
Theorem connect_probe_failed e cl w pid argv evs :
  trace (snd (NewConnectCmd e cl w)) = (trace w ++ evs)%list ->
  In (EvSpawn pid argv) evs ->
  isProcessRunning (sys e) pid = false ->
  fst (NewConnectCmd e cl w) = Some (ErrDaemonExited pid)
  /\ registry (snd (NewConnectCmd e cl w)) = registry w
  /\ evs = [EvSpawn pid argv].
Proof.
  unfold NewConnectCmd.
  destruct (args cl) as [|name [|? ?]]; cbn [fst snd].
  - cbn. intros ->%emitted_one [Hin|[]]. discriminate.
  - destruct (resolve e cl name) as [t|]; cbn [fst snd].
    2: { intros ->%emitted_none []. }
    destruct (match findConnection _ _ _ _ with Ok _ => _ | Err _ => _ end);
      cbn [fst snd].
    { intros ->%emitted_none []. }
    destruct (background cl).
    + rewrite background_spec.
      destruct (executable e) as [execPath|]; cbn [fst snd].
      2: { intros ->%emitted_none []. }
      destruct (start e) as [pid'|]; cbn [fst snd].
      2: { intros ->%emitted_none []. }
      cbn zeta.
      destruct (isProcessRunning (sys e) pid') eqn:Ealive.
      * destruct (addConnection _ _ _) as [[err|] f']; cbn [fst snd trace];
          intros <-%app_inv_head [Hin|[Hin|[]]] Hdead; try discriminate;
          injection Hin as -> _; congruence.
      * cbn [fst snd trace registry].
        intros <-%app_inv_head [Hin|[]] _. now injection Hin as -> ->.
    + unfold createForegroundPortForward.
      destruct (foreground e); cbn [fst snd trace log].
      * intros ->%emitted_none [].
      * intros ->%emitted_none [].
      * intros ->%emitted_one [Hin|[]]. discriminate.
      * intros ->%emitted_two [Hin|[Hin|[]]]; discriminate.
  - intros ->%emitted_none [].
Qed.

(** A run in which the pid of the spawned worker answers no probe. *)
Lemma connect_probe_failed_witness :
  fst (NewConnectCmd (cluster (nobody_alive fs_good) (Some 4242)) connect_db
               empty_registry)
  = Some (ErrDaemonExited 4242)
  /\ registry (snd (NewConnectCmd (cluster (nobody_alive fs_good) (Some 4242))
                      connect_db empty_registry))
     = registry empty_registry
  /\ [EvSpawn 4242
        (daemon_argv "/usr/local/bin/bugx" "/home/op/.kube/config" "prod" "db"
           "db-0" "3307" 3306)]
     = [EvSpawn 4242
          (daemon_argv "/usr/local/bin/bugx" "/home/op/.kube/config" "prod"
             "db" "db-0" "3307" 3306)].
Proof.
  apply (connect_probe_failed
           (cluster (nobody_alive fs_good) (Some 4242)) connect_db
           empty_registry 4242
           (daemon_argv "/usr/local/bin/bugx" "/home/op/.kube/config"
              "prod" "db" "db-0" "3307" 3306)).
  - reflexivity.
  - left; reflexivity.
  - reflexivity.
Defined.

(** An unblocked background connect, step by step. *)
Lemma connect_unblocked e cl w name t :
  args cl = [name] ->
  resolve e cl name = Ok t ->
  background cl = true ->
  (forall c, findConnection (fs (sys e)) name (t_namespace t) (registry w) = Ok c ->
             Status c <> "active") ->
  NewConnectCmd e cl w
  = createBackgroundPortForward e (t_namespace t) name (t_podName t)
      (t_localPort t) (t_remotePort t) (t_kubeconfigPath t) w.
Proof.
  intros Ha Hr Hb Hfree. unfold NewConnectCmd. rewrite Ha, Hr, Hb.
  destruct (findConnection _ _ _ _) as [c|]; [|reflexivity].
  destruct (String.eqb_spec (Status c) "active") as [Es|]; [|reflexivity].
  now destruct (Hfree c eq_refl).
Qed.

(** C4 does not hold of the code.  The child is started and released,
    never waited for, so a child that has terminated within the wait is
    a zombie of the connect process, and the probe, kill(pid, 0), finds
    its pid.  Over a process table in which the spawned child has
    terminated, an unblocked background connect does not return the
    "daemon process failed to start" error; when the registry can be
    loaded and written it returns nil and the file gains an [active]
    record with the PID of the dead child. *)
Theorem connect_records_terminated_child table f e cl w name t execPath pid s :
  sys e = unix table f ->
  args cl = [name] ->
  resolve e cl name = Ok t ->
  background cl = true ->
  (forall c, findConnection (fs (sys e)) name (t_namespace t) (registry w) = Ok c ->
             Status c <> "active") ->
  executable e = Some execPath ->
  start e = Some pid ->
  table pid = Zombie ->
  fst (NewConnectCmd e cl w) <> Some (ErrDaemonExited pid)
  /\ (loadConnections (fs_save e) (registry w) = Ok s ->
      write_out (fs_save e) = WriteOk ->
      fst (NewConnectCmd e cl w) = None
      /\ registry (snd (NewConnectCmd e cl w))
         = Some (Text (json_MarshalIndent
                         (append s (mkConn pid name (t_namespace t)
                                      (t_localPort t) (t_remotePort t)
                                      (t_podName t) (t_kubeconfigPath t)
                                      "active"))))
      /\ (in_int pid = true -> in_int32 (t_remotePort t) = true ->
          registry_records (registry (snd (NewConnectCmd e cl w)))
          = (elems s
             ++ [coerced (mkConn pid name (t_namespace t) (t_localPort t)
                            (t_remotePort t) (t_podName t)
                            (t_kubeconfigPath t) "active")])%list)).
Proof.
  intros Hsys Ha Hr Hb Hfree Hx Hst Hz.
  rewrite (connect_unblocked _ _ _ _ _ Ha Hr Hb Hfree), background_spec.
  rewrite Hx, Hst. cbn zeta.
  assert (Halive : isProcessRunning (sys e) pid = true).
  { rewrite Hsys. unfold isProcessRunning, os_FindProcess, unix; cbn.
    now rewrite Hz. }
  rewrite Halive. split.
  - now destruct (addConnection _ _ _) as [[err|] f'].
  - intros Hl Hw. unfold addConnection. rewrite Hl.
    pose proof (load_inv _ _ _ Hl) as ([Hm _] & _ & Hstored).
    rewrite save_ok by now split. cbn [fst snd registry].
    split; [reflexivity|]. split; [reflexivity|].
    intros Hpid Hport. apply records_appended; [exact Hstored|].
    unfold conn_in_range; cbn. now rewrite Hpid, Hport.
Qed.

(** A run to which this applies: the child 4242 has terminated, the
    registry is empty and can be written. *)
Lemma connect_records_terminated_child_witness :
  fst (NewConnectCmd (cluster (unix child_terminated fs_good) (Some 4242))
         connect_db empty_registry) = None
  /\ registry_records
       (registry (snd (NewConnectCmd
                         (cluster (unix child_terminated fs_good) (Some 4242))
                         connect_db empty_registry)))
     = [db_record 4242 "active"].
Proof.
  destruct (connect_records_terminated_child child_terminated fs_good
              (cluster (unix child_terminated fs_good) (Some 4242))
              connect_db empty_registry "db"
              (mkTarget "/home/op/.kube/config" "prod" "db-0" "3307" 3306)
              "/usr/local/bin/bugx" 4242 (mk_slice []))
    as [_ H].
  - reflexivity.
  - reflexivity.
  - reflexivity.
  - reflexivity.
  - intros c Hc. discriminate Hc.
  - reflexivity.
  - reflexivity.
  - reflexivity.
  - destruct (H eq_refl eq_refl) as (Hnil & _ & Hrec).
    split; [exact Hnil|]. exact (Hrec eq_refl eq_refl).
Defined.

(** Whether [addConnection] fails, and how, does not depend on the
    record. *)
Lemma add_error_any_record e c1 c2 f :
  fst (addConnection e c1 f) = fst (addConnection e c2 f).
Proof.
  unfold addConnection.
  destruct (loadConnections e f); [|reflexivity].
  unfold saveConnections, os_WriteFile.
  destruct (mkdir_ok e); [|reflexivity].
  now destruct (write_out e).
Qed.

(** C5. When a connect has spawned the worker, the worker answers the
    probe after the wait, and the registry write fails (with [cause], as
    it would for any record), connect sends SIGKILL to the worker and
    then returns "failed to save connection info" wrapping [cause]; the
    spawn and the kill are all it emitted. *)
Theorem connect_kills_unrecorded_child e cl w pid argv evs conn cause :
  trace (snd (NewConnectCmd e cl w)) = (trace w ++ evs)%list ->
  In (EvSpawn pid argv) evs ->
  isProcessRunning (sys e) pid = true ->
  fst (addConnection (fs_save e) conn (registry w)) = Some cause ->
  fst (NewConnectCmd e cl w) = Some (ErrSaveConnInfo cause)
  /\ evs = [EvSpawn pid argv; EvSignal pid SIGKILL].
Proof.
  unfold NewConnectCmd.
  destruct (args cl) as [|name [|? ?]]; cbn [fst snd].
  - cbn. intros ->%emitted_one [Hin|[]]. discriminate.
  - destruct (resolve e cl name) as [t|]; cbn [fst snd].
    2: { intros ->%emitted_none []. }
    destruct (match findConnection _ _ _ _ with Ok _ => _ | Err _ => _ end);
      cbn [fst snd].
    { intros ->%emitted_none []. }
    destruct (background cl).
    + rewrite background_spec.
      destruct (executable e) as [execPath|]; cbn [fst snd].
      2: { intros ->%emitted_none []. }
      destruct (start e) as [pid'|]; cbn [fst snd].
      2: { intros ->%emitted_none []. }
      cbn zeta.
      destruct (isProcessRunning (sys e) pid') eqn:Ealive.
      * intros Ht Hin Halive Hadd.
        rewrite (add_error_any_record _ conn
                   (mkConn pid' name (t_namespace t) (t_localPort t)
                      (t_remotePort t) (t_podName t) (t_kubeconfigPath t)
                      "active")) in Hadd.
        destruct (addConnection _ _ _) as [[err|] f']; cbn [fst snd trace] in *;
          [|discriminate].
        injection Hadd as ->.
        apply app_inv_head in Ht as <-.
        destruct Hin as [Hin|[Hin|[]]]; [|discriminate].
        now injection Hin as -> ->.
      * cbn [fst snd trace registry].
        intros <-%app_inv_head [Hin|[]] Halive.
        injection Hin as -> _. congruence.
    + unfold createForegroundPortForward.
      destruct (foreground e); cbn [fst snd trace log].
      * intros ->%emitted_none [].
      * intros ->%emitted_none [].
      * intros ->%emitted_one [Hin|[]]. discriminate.
      * intros ->%emitted_two [Hin|[Hin|[]]]; discriminate.
  - intros ->%emitted_none [].
Qed.

(** A run to which C5 applies: the registry file cannot be written. *)
Lemma connect_kills_unrecorded_child_witness :
  fst (NewConnectCmd (cluster (everybody_alive fs_no_write) (Some 4242)) connect_db
               empty_registry)
  = Some (ErrSaveConnInfo ErrWriteFile)
  /\ [EvSpawn 4242
        (daemon_argv "/usr/local/bin/bugx" "/home/op/.kube/config" "prod" "db"
           "db-0" "3307" 3306);
      EvSignal 4242 SIGKILL]
     = [EvSpawn 4242
          (daemon_argv "/usr/local/bin/bugx" "/home/op/.kube/config" "prod"
             "db" "db-0" "3307" 3306);
        EvSignal 4242 SIGKILL].
Proof.
  apply (@connect_kills_unrecorded_child
           (cluster (everybody_alive fs_no_write) (Some 4242)) connect_db
           empty_registry 4242
           (daemon_argv "/usr/local/bin/bugx" "/home/op/.kube/config"
              "prod" "db" "db-0" "3307" 3306)
           _ zero_conn ErrWriteFile).
  - reflexivity.
  - left; reflexivity.
  - reflexivity.
  - reflexivity.
Defined.

(** ** Removal *)

Lemma others_spec name ns l c :
  In c (others name ns l) <-> In c l /\ key c <> (name, ns).
Proof.
  unfold others. rewrite filter_In, negb_true_iff, <- not_true_iff_false.
  now rewrite same_key_iff.
Qed.

Lemma fs_works_split e :
  fs_works e <-> fs_reads e /\ fs_works_write e.
Proof. unfold fs_works, fs_reads, fs_works_write. tauto. Qed.

Lemma load_failed_no_records e f err :
  fs_reads e -> loadConnections e f = Err err -> registry_records f = [].
Proof.
  intros [Hm Hr]. unfold loadConnections, os_ReadFile, registry_records.
  rewrite Hm, Hr; cbn.
  destruct f as [[doc| |]|]; try discriminate; try reflexivity.
  now destruct (json_Unmarshal doc).
Qed.

(** With a file system that works, a removal leaves exactly the records
    with another key, in their order. *)
Lemma remove_records e name ns f :
  fs_works e ->
  fst (removeConnection e name ns f)
  = match loadConnections e f with Ok _ => None | Err err => Some err end
  /\ registry_records (snd (removeConnection e name ns f))
     = others name ns (registry_records f).
Proof.
  intros [Hr Hw]%fs_works_split. rewrite remove_unfold.
  destruct (loadConnections e f) as [s|err] eqn:El; cbn [fst snd].
  - rewrite (save_ok _ _ _ Hw); cbn [fst snd]. split; [reflexivity|].
    apply load_inv in El as (_ & <- & Hst).
    rewrite records_rewritten; rewrite elems_collect; [reflexivity|].
    unfold others. now apply forallb_filter.
  - split; [reflexivity|].
    now rewrite (load_failed_no_records _ _ _ Hr El).
Qed.

Lemma remove_and_report_trace e name ns pid w :
  trace (snd (remove_and_report e name ns pid w))
  = (trace w
     ++ match fst (removeConnection (fs e) name ns (registry w)) with
        | None => [EvPrint (MsgDisconnected ns name pid)]
        | Some _ => []
        end)%list.
Proof.
  unfold remove_and_report.
  destruct (removeConnection _ _ _ _) as [[err|] f']; cbn.
  - now rewrite app_nil_r.
  - reflexivity.
Qed.

(** ** disconnect *)

(** C6. A disconnect that finds a record for the (name, scope) whose
    PID does not answer the probe returns nil, prints the "was already
    stopped" note and emits nothing else: no signal is sent.  The
    registry is what [removeConnection] leaves; when the file system lets
    the file be rewritten, no record with that (name, scope) is left and
    the others are as before. *)
Theorem disconnect_already_stopped e cl w name c :
  d_args cl = [name] ->
  findConnection (fs e) name (disconnect_scope cl) (registry w) = Ok c ->
  isProcessRunning e (PID c) = false ->
  fst (NewDisconnectCmd e cl w) = None
  /\ trace (snd (NewDisconnectCmd e cl w))
     = (trace w ++ [EvPrint (MsgAlreadyStopped (disconnect_scope cl) name)])%list
  /\ registry (snd (NewDisconnectCmd e cl w))
     = snd (removeConnection (fs e) name (disconnect_scope cl) (registry w))
  /\ (write_out (fs e) = WriteOk ->
      registry_records (registry (snd (NewDisconnectCmd e cl w)))
      = others name (disconnect_scope cl) (registry_records (registry w))).
Proof.
  intros Ha Hf Hdead. unfold NewDisconnectCmd. fold (disconnect_scope cl).
  rewrite Ha, Hf, Hdead. cbn [negb fst snd trace log registry with_registry].
  repeat split.
  intros Hw. apply remove_records.
  apply find_iff in Hf as [[Hm Hr] _]. now repeat split.
Qed.

Lemma disconnect_already_stopped_witness :
  fst (NewDisconnectCmd (nobody_alive fs_good) disconnect_db
         (holding [web_record 7; db_record 1000 "active"])) = None
  /\ trace (snd (NewDisconnectCmd (nobody_alive fs_good) disconnect_db
                   (holding [web_record 7; db_record 1000 "active"])))
     = (trace (holding [web_record 7; db_record 1000 "active"])
        ++ [EvPrint (MsgAlreadyStopped (disconnect_scope disconnect_db) "db")])%list
  /\ registry (snd (NewDisconnectCmd (nobody_alive fs_good) disconnect_db
                      (holding [web_record 7; db_record 1000 "active"])))
     = snd (removeConnection (fs (nobody_alive fs_good)) "db"
              (disconnect_scope disconnect_db)
              (registry (holding [web_record 7; db_record 1000 "active"])))
  /\ (write_out (fs (nobody_alive fs_good)) = WriteOk ->
      registry_records
        (registry (snd (NewDisconnectCmd (nobody_alive fs_good) disconnect_db
                          (holding [web_record 7; db_record 1000 "active"]))))
      = others "db" (disconnect_scope disconnect_db)
          (registry_records
             (registry (holding [web_record 7; db_record 1000 "active"])))).
Proof.
  apply (@disconnect_already_stopped (nobody_alive fs_good) disconnect_db
           (holding [web_record 7; db_record 1000 "active"]) "db"
           (db_record 1000 "active")).
  - reflexivity.
  - reflexivity.
  - reflexivity.
Defined.

(** C7. A disconnect that finds a record whose PID answers the probe
    sends SIGTERM to that PID, and sends SIGKILL exactly when the SIGTERM
    call returned an error; it signals no other process. *)
Theorem disconnect_escalation e cl w name c :
  d_args cl = [name] ->
  findConnection (fs e) name (disconnect_scope cl) (registry w) = Ok c ->
  isProcessRunning e (PID c) = true ->
  exists evs,
    trace (snd (NewDisconnectCmd e cl w)) = (trace w ++ evs)%list
    /\ In (EvSignal (PID c) SIGTERM) evs
    /\ (In (EvSignal (PID c) SIGKILL) evs <-> sigterm_ok e (PID c) = false)
    /\ (forall pid sig, In (EvSignal pid sig) evs -> pid = PID c).
Proof.
  intros Ha Hf Halive. unfold NewDisconnectCmd. fold (disconnect_scope cl).
  rewrite Ha, Hf, Halive. cbn [negb os_FindProcess].
  destruct (sigterm_ok e (PID c)) eqn:Et.
  - rewrite remove_and_report_trace. cbn [trace log registry].
    rewrite <- app_assoc. eexists; split; [reflexivity|].
    destruct (fst (removeConnection _ _ _ _)); cbn;
      (split; [now left|]);
      (split; [split; [intros [H|H]; try discriminate; try contradiction;
                       destruct H; try discriminate; contradiction
                      | discriminate]
              |]);
      intros pid sig [H|H]; try (now injection H as <- _);
      try contradiction; destruct H; try discriminate; contradiction.
  - destruct (sigkill_ok e (PID c)) eqn:Ek.
    + rewrite remove_and_report_trace. cbn [trace log registry].
      rewrite <- !app_assoc. eexists; split; [reflexivity|].
      destruct (fst (removeConnection _ _ _ _)); cbn;
        (split; [now left|]);
        (split; [split; [reflexivity | now right; left]|]);
        intros pid sig [H|[H|H]]; try (now injection H as <- _);
        try contradiction; destruct H; try discriminate; contradiction.
    + cbn [snd trace log]. rewrite <- app_assoc.
      eexists; split; [reflexivity|]. cbn.
      split; [now left|]. split; [split; [reflexivity | now right; left]|].
      intros pid sig [H|[H|[]]]; now injection H as <- _.
Qed.

Lemma disconnect_escalation_witness :
  exists evs,
    trace (snd (NewDisconnectCmd (term_refused fs_good) disconnect_db
                  (holding [db_record 1000 "active"])))
    = (trace (holding [db_record 1000 "active"]) ++ evs)%list
    /\ In (EvSignal (PID (db_record 1000 "active")) SIGTERM) evs
    /\ (In (EvSignal (PID (db_record 1000 "active")) SIGKILL) evs
        <-> sigterm_ok (term_refused fs_good) (PID (db_record 1000 "active"))
            = false)
    /\ (forall pid sig, In (EvSignal pid sig) evs
                        -> pid = PID (db_record 1000 "active")).
Proof.
  apply (@disconnect_escalation (term_refused fs_good) disconnect_db
           (holding [db_record 1000 "active"]) "db").
  - reflexivity.
  - reflexivity.
  - reflexivity.
Defined.

(** ** Round trip through the registry file *)

(** C8, as the code has it.  Saving a sequence of records (whose
    integer fields hold values of their Go types) and then loading, with
    a file system that lets the file be read, yields the sequence with
    every string coerced to valid UTF-8, in the same order (and the same
    nil-ness of the slice): the same records, field for field, when their
    strings are valid UTF-8. *)
Theorem save_then_load e e' s f f' :
  forallb conn_in_range (elems s) = true ->
  saveConnections e s f = (None, f') ->
  fs_reads e' ->
  loadConnections e' f' = Ok (coerced_slice s)
  /\ (forallb conn_text (elems s) = true -> loadConnections e' f' = Ok s).
Proof.
  intros Hrange Hsave Hread.
  apply save_inv in Hsave as [_ ->].
  split; [now apply load_written|].
  intros Htext. apply load_rewritten; [exact Hread|].
  now apply conn_stored_split.
Qed.

Lemma save_then_load_witness :
  loadConnections fs_good
    (Some (Text (json_MarshalIndent
                   (mk_slice [db_record 1000 "active"; web_record 7]))))
  = Ok (mk_slice [db_record 1000 "active"; web_record 7]).
Proof.
  destruct (save_then_load fs_good fs_good
              (mk_slice [db_record 1000 "active"; web_record 7]) None
              (Some (Text (json_MarshalIndent
                             (mk_slice [db_record 1000 "active"; web_record 7]))))
              eq_refl eq_refl (conj eq_refl eq_refl)) as [_ H].
  exact (H eq_refl).
Defined.

(** C8, as the claim has it, fails for a record with a string that is
    not valid UTF-8.  The record a connect builds for [--localport] given
    as the one byte FF is saved without error and comes back with U+FFFD
    for its local port. *)
Lemma save_then_load_replaces_invalid_bytes :
  fst (saveConnections fs_good (mk_slice [raw_port_record]) None) = None
  /\ loadConnections fs_good
       (snd (saveConnections fs_good (mk_slice [raw_port_record]) None))
     = Ok (mk_slice [mkConn 4242 "db" "prod" replacement 3306 "db-0"
                            "/home/op/.kube/config" "active"])
  /\ loadConnections fs_good
       (snd (saveConnections fs_good (mk_slice [raw_port_record]) None))
     <> Ok (mk_slice [raw_port_record]).
Proof.
  assert (E : loadConnections fs_good
                (snd (saveConnections fs_good (mk_slice [raw_port_record]) None))
              = Ok (mk_slice [mkConn 4242 "db" "prod" replacement 3306 "db-0"
                                     "/home/op/.kube/config" "active"]))
    by (vm_compute; reflexivity).
  split; [reflexivity|]. split; [exact E|].
  rewrite E. unfold raw_port_record, byte_FF, replacement. discriminate.
Qed.

(** ** updateConnectionStatus *)

Lemma same_key_with_status name ns st c :
  same_key name ns (with_status st c) = same_key name ns c.
Proof. reflexivity. Qed.

Lemma mark_first_spec name ns st l c :
  find (same_key name ns) l = Some c ->
  exists l1 l2,
    l = (l1 ++ c :: l2)%list
    /\ mark_first name ns st l = Some (l1 ++ with_status st c :: l2)%list
    /\ find (same_key name ns) (l1 ++ with_status st c :: l2)
       = Some (with_status st c).
Proof.
  induction l as [|x l IH]; cbn; [discriminate|].
  destruct (same_key name ns x) eqn:Ex.
  - intros H; injection H as <-. exists [], l. cbn.
    rewrite same_key_with_status, Ex. auto.
  - intros H. destruct (IH H) as (l1 & l2 & -> & Hm & Hf).
    exists (x :: l1), l2. cbn. now rewrite Hm, Ex, Hf.
Qed.

Lemma mark_first_none name ns st l :
  find (same_key name ns) l = None -> mark_first name ns st l = None.
Proof.
  induction l as [|x l IH]; cbn; [reflexivity|].
  destruct (same_key name ns x); [discriminate|].
  intros H. now rewrite (IH H).
Qed.

Lemma mark_first_in_range name ns st l l' :
  mark_first name ns st l = Some l' ->
  forallb conn_in_range l = true -> forallb conn_in_range l' = true.
Proof.
  revert l'. induction l as [|x l IH]; cbn; intros l' H; [discriminate|].
  rewrite andb_true_iff. intros [Hx Hl].
  destruct (same_key name ns x).
  - injection H as <-. cbn. now rewrite Hl, andb_true_r.
  - destruct (mark_first name ns st l) as [l''|]; [|discriminate].
    injection H as <-. cbn. now rewrite Hx, (IH _ eq_refl Hl).
Qed.

Lemma coerced_with_status st c :
  conn_text c = true -> coerced (with_status st c) = with_status (coerce st) c.
Proof.
  intros Hc. apply conn_text_iff in Hc.
  destruct c as [pid sn ns lp rp pn kc st0].
  unfold coerced, with_status in *; cbn in *.
  injection Hc as H1 H2 H3 H4 H5 _. now rewrite H1, H2, H3, H4, H5.
Qed.

(** What is written after marking reads back as the loaded records with
    the coerced status on the first match. *)
Lemma mark_first_coerced name ns st l : forall l',
  forallb conn_stored l = true ->
  mark_first name ns st l = Some l' ->
  mark_first name ns (coerce st) l = Some (map coerced l').
Proof.
  induction l as [|x l IH]; cbn; intros l' Hs H; [discriminate|].
  apply andb_true_iff in Hs as [Hx Hl].
  pose proof Hx as [_ Hxt]%andb_true_iff.
  destruct (same_key name ns x).
  - injection H as <-. cbn.
    now rewrite (coerced_with_status _ _ Hxt), (stored_coerced _ Hl).
  - destruct (mark_first name ns st l) as [l''|]; [|discriminate].
    injection H as <-. rewrite (IH _ Hl eq_refl). cbn.
    apply conn_text_iff in Hxt. now rewrite Hxt.
Qed.

Lemma mark_first_none_any name ns st st' l :
  mark_first name ns st l = None -> mark_first name ns st' l = None.
Proof.
  induction l as [|x l IH]; cbn; [reflexivity|].
  destruct (same_key name ns x); [discriminate|].
  destruct (mark_first name ns st l); [discriminate|].
  intros _. now rewrite IH.
Qed.

Lemma coerce_stopped : coerce "stopped" = "stopped".
Proof. reflexivity. Qed.

(** With a file system that works, an update leaves the records with
    the first one for the key marked (the status coerced to valid UTF-8,
    as the file holds it), or as they were when there is none. *)
Lemma update_records e name ns st f :
  fs_works e ->
  registry_records (snd (updateConnectionStatus e name ns st f))
  = match mark_first name ns (coerce st) (registry_records f) with
    | Some l => l
    | None => registry_records f
    end.
Proof.
  intros [Hr Hw]%fs_works_split. unfold updateConnectionStatus.
  destruct (loadConnections e f) as [s|err] eqn:El; cbn [snd].
  - apply load_inv in El as (_ & Er & Hst). rewrite <- Er.
    destruct (mark_first name ns st (elems s)) as [l|] eqn:Em; cbn [snd].
    + rewrite (mark_first_coerced _ _ _ _ _ Hst Em).
      rewrite (save_ok _ _ _ Hw); cbn [snd].
      rewrite records_written; cbn [elems].
      now rewrite (mark_first_in_range _ _ _ _ _ Em (stored_in_range _ Hst)).
    + now rewrite (mark_first_none_any _ _ _ (coerce st) _ Em).
  - now rewrite (load_failed_no_records _ _ _ Hr El).
Qed.

Lemma update_records_stopped e name ns f :
  fs_works e ->
  registry_records (snd (updateConnectionStatus e name ns "stopped" f))
  = match mark_first name ns "stopped" (registry_records f) with
    | Some l => l
    | None => registry_records f
    end.
Proof. intros Hw. now rewrite (update_records _ _ _ _ _ Hw), coerce_stopped. Qed.

(** ** The daemon runtime *)

(** C9, as the code has it.  A daemon that has reached the running
    state (the tunnel became ready) ends in one of two ways.  On a
    termination signal it closes the stop channel of the tunnel, leaves
    the registry as [removeConnection] leaves it and returns nil, exit
    status 0; when the file system works, no record with its (service,
    namespace) is left, its own among them, and the others are as before.
    On a tunnel error it leaves the registry as [updateConnectionStatus]
    to "stopped" leaves it and returns the error, exit status non-zero;
    when the file system works, the first record with its (service,
    namespace) is still there, with status "stopped", and every other
    record is as before: the daemon's own record is the one marked when
    it is the first of its pair.  The outcome of either registry call is
    dropped. *)
Theorem daemon_running_exits e ns pod lp rp service w :
  on_start e = TunnelReady ->
  (on_run e = TermSignal ->
   fst (runPortForwardDaemon e ns pod lp rp service w) = None
   /\ exit_status (fst (runPortForwardDaemon e ns pod lp rp service w)) = 0
   /\ In EvTunnelStop (trace (snd (runPortForwardDaemon e ns pod lp rp service w)))
   /\ registry (snd (runPortForwardDaemon e ns pod lp rp service w))
      = snd (removeConnection (dfs e) service ns (registry w))
   /\ (fs_works (dfs e) ->
       registry_records (registry (snd (runPortForwardDaemon e ns pod lp rp service w)))
       = others service ns (registry_records (registry w))
       /\ forall c,
            own_record e service ns c ->
            ~ In c (registry_records
                      (registry (snd (runPortForwardDaemon e ns pod lp rp
                                        service w))))))
  /\ (forall msg, on_run e = TunnelError msg ->
      fst (runPortForwardDaemon e ns pod lp rp service w) = Some (ErrTunnel msg)
      /\ exit_status (fst (runPortForwardDaemon e ns pod lp rp service w)) <> 0
      /\ registry (snd (runPortForwardDaemon e ns pod lp rp service w))
         = snd (updateConnectionStatus (dfs e) service ns "stopped" (registry w))
      /\ (fs_works (dfs e) ->
          forall c,
            find (same_key service ns) (registry_records (registry w)) = Some c ->
            (exists l1 l2,
               registry_records (registry w) = (l1 ++ c :: l2)%list
               /\ registry_records
                    (registry (snd (runPortForwardDaemon e ns pod lp rp service w)))
                  = (l1 ++ with_status "stopped" c :: l2)%list
               /\ find (same_key service ns)
                    (registry_records
                       (registry (snd (runPortForwardDaemon e ns pod lp rp service w))))
                  = Some (with_status "stopped" c))
            /\ (own_record e service ns c ->
                In (with_status "stopped" c)
                   (registry_records
                      (registry (snd (runPortForwardDaemon e ns pod lp rp
                                        service w))))))).
Proof.
  intros Hs. unfold runPortForwardDaemon. rewrite Hs. split.
  - intros ->. cbn [fst snd exit_status trace log with_registry registry].
    repeat split.
    + apply in_or_app. right. now left.
    + now apply remove_records.
    + intros c [Hkey _]. rewrite (proj2 (remove_records _ _ _ _ H)).
      intros [_ Hne]%others_spec. now apply Hne, same_key_iff.
  - intros msg ->. cbn [fst snd exit_status trace log with_registry registry].
    split; [reflexivity|]. split; [discriminate|]. split; [reflexivity|].
    intros Hw c Hc. rewrite (update_records_stopped _ _ _ _ Hw).
    destruct (mark_first_spec service ns "stopped" _ _ Hc)
      as (l1 & l2 & Hl & Hm & Hf).
    rewrite Hm. split; [eauto|].
    intros _. apply in_or_app. right. now left.
Qed.

(** Two runs to which C9 applies, on a registry that holds a record of
    another service and the record of the daemon: a signal removes the
    daemon's record, a tunnel error marks it. *)
Lemma daemon_running_exits_witness :
  (fst (runPortForwardDaemon (daemon_env fs_good TermSignal)
          "prod" "db-0" "3307" 3306 "db"
          (holding [web_record 7; db_record 4242 "active"])) = None
   /\ registry_records
        (registry (snd (runPortForwardDaemon (daemon_env fs_good TermSignal)
                          "prod" "db-0" "3307" 3306 "db"
                          (holding [web_record 7; db_record 4242 "active"]))))
      = [web_record 7])
  /\ (fst (runPortForwardDaemon (daemon_env fs_good (TunnelError "lost"))
             "prod" "db-0" "3307" 3306 "db"
             (holding [web_record 7; db_record 4242 "active"]))
      = Some (ErrTunnel "lost")
      /\ find (same_key "db" "prod")
           (registry_records
              (registry (snd (runPortForwardDaemon
                                (daemon_env fs_good (TunnelError "lost"))
                                "prod" "db-0" "3307" 3306 "db"
                                (holding [web_record 7; db_record 4242 "active"])))))
         = Some (db_record 4242 "stopped")).
Proof.
  split.
  - destruct (daemon_running_exits (daemon_env fs_good TermSignal)
                "prod" "db-0" "3307" 3306 "db"
                (holding [web_record 7; db_record 4242 "active"]) eq_refl)
      as [Hsig _].
    destruct (Hsig eq_refl) as (Hr & _ & _ & _ & Hrec).
    split; [exact Hr|].
    destruct (Hrec (conj eq_refl (conj eq_refl eq_refl))) as [-> _].
    reflexivity.
  - destruct (daemon_running_exits (daemon_env fs_good (TunnelError "lost"))
                "prod" "db-0" "3307" 3306 "db"
                (holding [web_record 7; db_record 4242 "active"]) eq_refl)
      as [_ Herr].
    destruct (Herr "lost" eq_refl) as (Hr & _ & _ & Hrec).
    split; [exact Hr|].
    destruct (Hrec (conj eq_refl (conj eq_refl eq_refl))
                (db_record 4242 "active") eq_refl)
      as [(l1 & l2 & _ & _ & Hfind) _].
    exact Hfind.
Defined.

(** C9, as the claim has it, fails on a tunnel error when an earlier
    record has the daemon's pair.  After connect, tunnel failure and a
    second connect the registry holds a "stopped" record and the [active]
    record of the second daemon, PID 4242.  When the tunnel of that
    daemon fails, [updateConnectionStatus] marks the first record again:
    the daemon's own record is still there and still [active]. *)
Lemma daemon_leaves_own_record_active :
  registry_records (registry (run_all connect_fail_connect empty_registry))
  = [db_record 1 "stopped"; db_record 4242 "active"]
  /\ own_record (daemon_env fs_good (TunnelError "lost")) "db" "prod"
       (db_record 4242 "active")
  /\ fst (runPortForwardDaemon (daemon_env fs_good (TunnelError "lost"))
            "prod" "db-0" "3307" 3306 "db"
            (run_all connect_fail_connect empty_registry))
     = Some (ErrTunnel "lost")
  /\ registry_records
       (registry (snd (runPortForwardDaemon
                         (daemon_env fs_good (TunnelError "lost"))
                         "prod" "db-0" "3307" 3306 "db"
                         (run_all connect_fail_connect empty_registry))))
     = [db_record 1 "stopped"; db_record 4242 "active"].
Proof.
  split; [vm_compute; reflexivity|].
  split; [split; reflexivity|].
  split; [reflexivity|]. vm_compute. reflexivity.
Qed.

(** ** removeConnection *)

(** C10. When the registry loads and the file system accepts the
    rewrite, [removeConnection] returns nil, whether or not a record
    matches, and the file then holds exactly the loaded records whose
    (name, scope) differs from the one given, in their order: every
    matching record is gone, whatever its status and PID, and every other
    record is kept as it was.  When nothing matches the records are the
    loaded ones. *)
Theorem remove_deletes_every_match e name ns f s :
  loadConnections e f = Ok s ->
  write_out e = WriteOk ->
  fst (removeConnection e name ns f) = None
  /\ snd (removeConnection e name ns f)
     = Some (Text (json_MarshalIndent (collect (others name ns (elems s)))))
  /\ registry_records (snd (removeConnection e name ns f))
     = filter (fun c => negb (same_key name ns c)) (elems s)
  /\ (forall c, In c (registry_records (snd (removeConnection e name ns f)))
                <-> In c (elems s) /\ key c <> (name, ns))
  /\ ((forall c, In c (elems s) -> key c <> (name, ns)) ->
      registry_records (snd (removeConnection e name ns f)) = elems s).
Proof.
  intros Hl Hw.
  pose proof (load_inv _ _ _ Hl) as ([Hm Hr] & Er & Hrange).
  assert (Hworks : fs_works e) by now repeat split.
  destruct (remove_records e name ns f Hworks) as [Hfst Hrec].
  rewrite Hl in Hfst. rewrite <- Er in Hrec.
  split; [exact Hfst|]. split.
  - rewrite remove_unfold, Hl. now rewrite save_ok by now split.
  - split; [exact Hrec|]. rewrite Hrec. split.
    + intros c. apply others_spec.
    + intros Hnone. unfold others.
      rewrite forallb_filter_id; [reflexivity|].
      apply forallb_forall. intros c Hc.
      apply negb_true_iff, not_true_iff_false.
      rewrite same_key_iff. now apply Hnone.
Qed.

Lemma remove_deletes_every_match_witness :
  registry_records
    (snd (removeConnection fs_good "db" "prod"
            (Some (Text (json_MarshalIndent
                           (mk_slice [db_record 1 "stopped"; web_record 7;
                                      db_record 2 "active"]))))))
  = [web_record 7].
Proof.
  destruct (remove_deletes_every_match fs_good "db" "prod"
              (Some (Text (json_MarshalIndent
                             (mk_slice [db_record 1 "stopped"; web_record 7;
                                        db_record 2 "active"]))))
              (mk_slice [db_record 1 "stopped"; web_record 7;
                         db_record 2 "active"])
              eq_refl eq_refl)
    as (_ & _ & Hrec & _).
  exact Hrec.
Defined.

(* ------------------------------------------------------------------ *)
(** * Further properties of the registry *)

Lemma find_app_r {A} (p : A -> bool) (l : list A) (x : A) :
  find p (l ++ [x])%list
  = match find p l with
    | Some y => Some y
    | None => if p x then Some x else None
    end.
Proof.
  induction l as [|y l IH]; cbn; [reflexivity|].
  now destruct (p y).
Qed.

Lemma find_filter_same {A} (p q : A -> bool) (l : list A) :
  (forall x, p x = true -> q x = true) ->
  find p (filter q l) = find p l.
Proof.
  intros Hpq. induction l as [|y l IH]; cbn; [reflexivity|].
  destruct (q y) eqn:Eq; cbn.
  - now rewrite IH.
  - destruct (p y) eqn:Ep; [|exact IH].
    apply Hpq in Ep. congruence.
Qed.

Lemma conn_in_range_app l c :
  forallb conn_in_range l = true -> conn_in_range c = true ->
  forallb conn_in_range (l ++ [c])%list = true.
Proof.
  intros Hl Hc. rewrite forallb_app, Hl. cbn. now rewrite Hc.
Qed.

Lemma add_written e conn f s :
  loadConnections e f = Ok s -> write_out e = WriteOk ->
  addConnection e conn f
  = (None, Some (Text (json_MarshalIndent (append s conn)))).
Proof.
  intros Hl Hw. unfold addConnection. rewrite Hl.
  apply save_ok. apply load_inv in Hl as ([Hm _] & _). now split.
Qed.

(** X1. On a first run, when the registry file is absent or holds no
    bytes and the file system works, none of the registry operations
    reports an I/O error: a lookup and a status update answer "connection
    not found" and leave the file alone, a removal succeeds, and an
    addition leaves a file that holds exactly the new record, its strings
    coerced to valid UTF-8. *)
Theorem first_run_operations e f name ns st conn :
  fs_works e ->
  f = None \/ f = Some Blank ->
  conn_in_range conn = true ->
  findConnection e name ns f = Err ErrConnNotFound
  /\ updateConnectionStatus e name ns st f = (Some ErrConnNotFound, f)
  /\ fst (removeConnection e name ns f) = None
  /\ registry_records (snd (removeConnection e name ns f)) = []
  /\ fst (addConnection e conn f) = None
  /\ loadConnections e (snd (addConnection e conn f))
     = Ok (mk_slice [coerced conn]).
Proof.
  intros (Hm & Hr & Hw) Hf Hc.
  assert (Hl : exists s, loadConnections e f = Ok s /\ elems s = []).
  { unfold loadConnections, os_ReadFile. rewrite Hm, Hr; cbn.
    destruct Hf as [-> | ->]; eauto. }
  destruct Hl as (s & Hl & Hs).
  repeat split.
  - unfold findConnection. now rewrite Hl, Hs.
  - unfold updateConnectionStatus. now rewrite Hl, Hs.
  - rewrite remove_unfold, Hl, Hs. cbn. now rewrite save_ok by now split.
  - rewrite remove_unfold, Hl, Hs. cbn. now rewrite save_ok by now split.
  - now rewrite (add_written _ _ _ _ Hl Hw).
  - rewrite (add_written _ _ _ _ Hl Hw); cbn [snd].
    unfold append. rewrite Hs. cbn [app].
    rewrite load_written; [reflexivity | now split |].
    cbn. now rewrite Hc.
Qed.

Lemma first_run_operations_witness :
  findConnection fs_good "db" "prod" None = Err ErrConnNotFound
  /\ loadConnections fs_good
       (snd (addConnection fs_good (db_record 4242 "active") None))
     = Ok (mk_slice [db_record 4242 "active"]).
Proof.
  destruct (first_run_operations fs_good None "db" "prod" "stopped"
              (db_record 4242 "active")
              (conj eq_refl (conj eq_refl eq_refl)) (or_introl eq_refl) eq_refl)
    as (Hfind & _ & _ & _ & _ & Hload).
  split; [exact Hfind | exact Hload].
Defined.

Lemma load_after_add e e' conn f s :
  loadConnections e f = Ok s ->
  write_out e = WriteOk ->
  conn_in_range conn = true ->
  fs_reads e' ->
  loadConnections e' (snd (addConnection e conn f))
  = Ok (mk_slice (elems s ++ [coerced conn])%list).
Proof.
  intros Hl Hw Hc Hr'. rewrite (add_written _ _ _ _ Hl Hw); cbn [snd].
  apply load_inv in Hl as (_ & _ & Hst).
  rewrite load_written; [|exact Hr'|].
  - cbn [append coerced_slice]. now rewrite map_app, (stored_coerced _ Hst).
  - cbn [append elems]. apply conn_in_range_app; [|exact Hc].
    now apply stored_in_range.
Qed.

(** X2. An addition that can load the registry and write the file
    returns nil, and a later load returns the records that were there, in
    their order, followed by the new one with its strings coerced to
    valid UTF-8: the new one as it is when its strings are valid. *)
Theorem add_appends e e' conn f s :
  loadConnections e f = Ok s ->
  write_out e = WriteOk ->
  conn_in_range conn = true ->
  fs_reads e' ->
  fst (addConnection e conn f) = None
  /\ loadConnections e' (snd (addConnection e conn f))
     = Ok (mk_slice (elems s ++ [coerced conn])%list)
  /\ (conn_text conn = true ->
      loadConnections e' (snd (addConnection e conn f))
      = Ok (mk_slice (elems s ++ [conn])%list)).
Proof.
  intros Hl Hw Hc Hr'. split; [|split].
  - now rewrite (add_written _ _ _ _ Hl Hw).
  - now apply load_after_add.
  - intros Ht%conn_text_iff. rewrite <- Ht at 2. now apply load_after_add.
Qed.

Lemma add_appends_witness :
  fst (addConnection fs_good (db_record 4242 "active")
         (registry (holding [web_record 7]))) = None
  /\ loadConnections fs_good
       (snd (addConnection fs_good (db_record 4242 "active")
               (registry (holding [web_record 7]))))
     = Ok (mk_slice ([web_record 7] ++ [db_record 4242 "active"])%list).
Proof.
  destruct (add_appends fs_good fs_good (db_record 4242 "active")
              (registry (holding [web_record 7])) (mk_slice [web_record 7])
              eq_refl eq_refl eq_refl (conj eq_refl eq_refl))
    as (Hnil & _ & Hload).
  split; [exact Hnil | exact (Hload eq_refl)].
Defined.

(** X3. After such an addition, a lookup of the (name, scope) under
    which the new record is stored (its own, coerced to valid UTF-8)
    answers the first record that already had that pair, if there was
    one, and the stored new record otherwise: an older record hides the
    new one.  Lookups of every other pair answer as before. *)
Theorem add_then_find e e' conn f s name ns :
  loadConnections e f = Ok s ->
  write_out e = WriteOk ->
  conn_in_range conn = true ->
  fs_reads e' ->
  findConnection e' (ServiceName (coerced conn)) (Namespace (coerced conn))
    (snd (addConnection e conn f))
  = Ok (match find (same_key (ServiceName (coerced conn))
                             (Namespace (coerced conn))) (elems s) with
        | Some older => older
        | None => coerced conn
        end)
  /\ ((name, ns) <> key (coerced conn) ->
      findConnection e' name ns (snd (addConnection e conn f))
      = findConnection e' name ns f).
Proof.
  intros Hl Hw Hc Hr'.
  pose proof (load_after_add e e' conn f s Hl Hw Hc Hr') as Hload.
  assert (Hload0 : loadConnections e' f = Ok s).
  { rewrite <- Hl. apply load_env.
    - apply load_inv in Hl as ([Hm _] & _). destruct Hr' as [Hm' _]. congruence.
    - apply load_inv in Hl as ([_ Hr] & _). destruct Hr' as [_ Hr'']. congruence. }
  unfold findConnection. rewrite Hload, Hload0. cbn [elems].
  rewrite !find_app_r. split.
  - destruct (find _ (elems s)); [reflexivity|].
    unfold same_key. now rewrite !String.eqb_refl.
  - intros Hne. destruct (find (same_key name ns) (elems s)); [reflexivity|].
    destruct (same_key name ns (coerced conn)) eqn:Ek; [|reflexivity].
    apply same_key_iff in Ek. congruence.
Qed.

Lemma add_then_find_witness :
  findConnection fs_good "db" "prod"
    (snd (addConnection fs_good (db_record 2 "active")
            (registry (holding [db_record 1 "stopped"]))))
  = Ok (db_record 1 "stopped").
Proof.
  destruct (add_then_find fs_good fs_good (db_record 2 "active")
              (registry (holding [db_record 1 "stopped"]))
              (mk_slice [db_record 1 "stopped"]) "web" "prod"
              eq_refl eq_refl eq_refl (conj eq_refl eq_refl)) as [H _].
  exact H.
Defined.

Lemma others_others name ns l :
  others name ns (others name ns l) = others name ns l.
Proof.
  unfold others. induction l as [|c l IH]; cbn; [reflexivity|].
  destruct (negb (same_key name ns c)) eqn:E; cbn; [|exact IH].
  now rewrite E, IH.
Qed.

Lemma others_no_match name ns l :
  find (same_key name ns) (others name ns l) = None.
Proof.
  unfold others. induction l as [|c l IH]; cbn; [reflexivity|].
  destruct (same_key name ns c) eqn:E; cbn; [exact IH|].
  now rewrite E.
Qed.

Lemma remove_written e name ns f s :
  loadConnections e f = Ok s -> write_out e = WriteOk ->
  removeConnection e name ns f
  = (None, Some (Text (json_MarshalIndent (collect (others name ns (elems s)))))).
Proof.
  intros Hl Hw. rewrite remove_unfold, Hl.
  apply save_ok. apply load_inv in Hl as ([Hm _] & _). now split.
Qed.

Lemma load_after_remove e e' name ns f s :
  loadConnections e f = Ok s -> write_out e = WriteOk -> fs_reads e' ->
  loadConnections e' (snd (removeConnection e name ns f))
  = Ok (collect (others name ns (elems s))).
Proof.
  intros Hl Hw Hr'. rewrite (remove_written _ _ _ _ _ Hl Hw); cbn [snd].
  apply load_rewritten; [exact Hr'|]. rewrite elems_collect.
  apply load_inv in Hl as (_ & _ & Hst).
  unfold others. now apply forallb_filter.
Qed.

(** X4. After a removal that could load the registry and write the
    file, a lookup of the removed (name, scope) answers "connection not
    found", and a lookup of any other pair answers what it answered
    before. *)
Theorem remove_then_find e e' name ns f s name' ns' :
  loadConnections e f = Ok s ->
  write_out e = WriteOk ->
  fs_reads e' ->
  findConnection e' name ns (snd (removeConnection e name ns f))
  = Err ErrConnNotFound
  /\ ((name', ns') <> (name, ns) ->
      findConnection e' name' ns' (snd (removeConnection e name ns f))
      = findConnection e' name' ns' f).
Proof.
  intros Hl Hw Hr'.
  assert (Hload0 : loadConnections e' f = Ok s).
  { rewrite <- Hl. apply load_inv in Hl as ([Hm Hr] & _).
    destruct Hr' as [Hm' Hr']. apply load_env; congruence. }
  unfold findConnection.
  rewrite (load_after_remove _ _ _ _ _ _ Hl Hw Hr'), Hload0, elems_collect.
  split.
  - now rewrite others_no_match.
  - intros Hne. unfold others. rewrite find_filter_same; [reflexivity|].
    intros c Hc. apply negb_true_iff, not_true_iff_false. intros Hc'.
    apply same_key_iff in Hc, Hc'. congruence.
Qed.

Lemma remove_then_find_witness :
  findConnection fs_good "db" "prod"
    (snd (removeConnection fs_good "db" "prod"
            (registry (holding [db_record 1 "stopped"; web_record 7;
                                db_record 2 "active"]))))
  = Err ErrConnNotFound
  /\ findConnection fs_good "web" "prod"
       (snd (removeConnection fs_good "db" "prod"
               (registry (holding [db_record 1 "stopped"; web_record 7;
                                   db_record 2 "active"]))))
     = Ok (web_record 7).
Proof.
  destruct (remove_then_find fs_good fs_good "db" "prod"
              (registry (holding [db_record 1 "stopped"; web_record 7;
                                  db_record 2 "active"]))
              (mk_slice [db_record 1 "stopped"; web_record 7;
                         db_record 2 "active"]) "web" "prod"
              eq_refl eq_refl (conj eq_refl eq_refl)) as [Hgone Hkept].
  split; [exact Hgone|]. rewrite Hkept; [reflexivity | discriminate].
Defined.

(** X5. Removal is idempotent: removing the same (name, scope) a second
    time succeeds again and leaves the file exactly as the first removal
    left it. *)
Theorem remove_twice e name ns f s :
  loadConnections e f = Ok s ->
  write_out e = WriteOk ->
  removeConnection e name ns (snd (removeConnection e name ns f))
  = (None, snd (removeConnection e name ns f)).
Proof.
  intros Hl Hw.
  assert (Hr : fs_reads e) by now apply load_inv in Hl.
  pose proof (load_after_remove e e name ns f s Hl Hw Hr) as Hl2.
  rewrite (remove_written _ _ _ _ _ Hl2 Hw), elems_collect, others_others.
  now rewrite (remove_written _ _ _ _ _ Hl Hw).
Qed.

Lemma remove_twice_witness :
  removeConnection fs_good "db" "prod"
    (snd (removeConnection fs_good "db" "prod"
            (registry (holding [web_record 7; db_record 2 "active"]))))
  = (None,
     snd (removeConnection fs_good "db" "prod"
            (registry (holding [web_record 7; db_record 2 "active"])))).
Proof.
  apply (remove_twice fs_good "db" "prod"
           (registry (holding [web_record 7; db_record 2 "active"]))
           (mk_slice [web_record 7; db_record 2 "active"])).
  - reflexivity.
  - reflexivity.
Defined.

(** ** updateConnectionStatus *)

Lemma mark_first_erase name ns st l l' :
  mark_first name ns st l = Some l' ->
  map erase_status l' = map erase_status l.
Proof.
  revert l'. induction l as [|c l IH]; cbn; intros l' H; [discriminate|].
  destruct (same_key name ns c).
  - now injection H as <-.
  - destruct (mark_first name ns st l) as [l''|]; [|discriminate].
    injection H as <-. cbn. now rewrite (IH _ eq_refl).
Qed.

Lemma mark_first_some_find name ns st l l' :
  mark_first name ns st l = Some l' ->
  exists c, find (same_key name ns) l = Some c.
Proof.
  revert l'. induction l as [|c l IH]; cbn; intros l' H; [discriminate|].
  destruct (same_key name ns c); [eauto|].
  destruct (mark_first name ns st l) as [l''|]; [|discriminate]. eauto.
Qed.

(** X6. A status update for a (name, scope) that no loaded record has
    answers "connection not found" and does not write the file, whatever
    the file system would have done with a write. *)
Theorem update_missing e name ns st f s :
  loadConnections e f = Ok s ->
  find (same_key name ns) (elems s) = None ->
  updateConnectionStatus e name ns st f = (Some ErrConnNotFound, f).
Proof.
  intros Hl Hnone. unfold updateConnectionStatus.
  now rewrite Hl, (mark_first_none _ _ _ _ Hnone).
Qed.

Lemma update_missing_witness :
  updateConnectionStatus fs_no_write "db" "prod" "stopped"
    (registry (holding [web_record 7]))
  = (Some ErrConnNotFound, registry (holding [web_record 7])).
Proof.
  apply (update_missing fs_no_write "db" "prod" "stopped"
           (registry (holding [web_record 7])) (mk_slice [web_record 7])).
  - reflexivity.
  - reflexivity.
Defined.

(** X7. With a file system that works, a status update changes nothing
    but statuses: the registry holds the same number of records, in the
    same order, each with the PID, name, scope, ports, pod and kubeconfig
    it had.  It succeeds exactly when a loaded record has the (name,
    scope), and then a lookup of the pair answers the record it answered
    before, with the new status as the file holds it (coerced to valid
    UTF-8: the status itself for "stopped", the only one the program
    passes). *)
Theorem update_only_status e name ns st f :
  fs_works e ->
  map erase_status
      (registry_records (snd (updateConnectionStatus e name ns st f)))
  = map erase_status (registry_records f)
  /\ (fst (updateConnectionStatus e name ns st f) = None
      <-> exists c, findConnection e name ns f = Ok c)
  /\ (forall c, findConnection e name ns f = Ok c ->
      findConnection e name ns (snd (updateConnectionStatus e name ns st f))
      = Ok (with_status (coerce st) c)).
Proof.
  intros Hworks. pose proof Hworks as [Hr Hw]%fs_works_split.
  split; [|split].
  - rewrite (update_records _ _ _ _ _ Hworks).
    destruct (mark_first name ns (coerce st) (registry_records f)) eqn:Em;
      [|reflexivity].
    now apply mark_first_erase in Em.
  - unfold updateConnectionStatus, findConnection.
    destruct (loadConnections e f) as [s|err]; cbn [fst].
    + destruct (find (same_key name ns) (elems s)) as [c|] eqn:Ef.
      * destruct (mark_first_spec name ns st _ _ Ef) as (l1 & l2 & _ & Hm & _).
        rewrite Hm, (save_ok _ _ _ Hw). cbn. split; eauto.
      * rewrite (mark_first_none _ _ _ _ Ef). cbn.
        split; [discriminate | intros [c H]; discriminate].
    + split; [discriminate | intros [c H]; discriminate].
  - intros c Hc. apply find_iff in Hc as [_ Hf].
    apply find_iff. split; [exact Hr|].
    rewrite (update_records _ _ _ _ _ Hworks).
    destruct (mark_first_spec name ns (coerce st) _ _ Hf)
      as (l1 & l2 & _ & Hm & Hfind).
    now rewrite Hm.
Qed.

Lemma update_only_status_witness :
  findConnection fs_good "db" "prod"
    (snd (updateConnectionStatus fs_good "db" "prod" "stopped"
            (registry (holding [web_record 7; db_record 2 "active"]))))
  = Ok (db_record 2 "stopped").
Proof.
  destruct (update_only_status fs_good "db" "prod" "stopped"
              (registry (holding [web_record 7; db_record 2 "active"]))
              (conj eq_refl (conj eq_refl eq_refl))) as (_ & _ & H).
  exact (H (db_record 2 "active") eq_refl).
Defined.

(* ------------------------------------------------------------------ *)
(** * Decimal text: [strconv.Itoa] and [strconv.ParseInt] *)

Ltac digit_value :=
  match goal with
  | |- context [Z.of_nat (nat_of_ascii ?c) - 48] =>
      let k := eval vm_compute in (Z.of_nat (nat_of_ascii c) - 48) in
      change (Z.of_nat (nat_of_ascii c) - 48) with k
  end.

Lemma parse_digits_acc d : forall acc,
  parse_digits (NilEmpty.string_of_uint d) (Zpos acc)
  = Some (Zpos (Pos.of_uint_acc d acc)).
Proof.
  induction d; intros acc;
    cbn [NilEmpty.string_of_uint parse_digits Pos.of_uint_acc];
    [reflexivity | ..];
    (change (is_digit _) with true; cbv iota; digit_value;
     match goal with
     | |- parse_digits _ ?a = Some (Zpos (Pos.of_uint_acc _ ?b)) =>
         replace a with (Zpos b) by lia
     end; apply IHd).
Qed.

Lemma parse_digits_uint d :
  parse_digits (NilEmpty.string_of_uint d) 0 = Some (Z.of_N (Pos.of_uint d)).
Proof.
  induction d; cbn [NilEmpty.string_of_uint parse_digits Pos.of_uint];
    [reflexivity | change (is_digit _) with true; exact IHd | ..];
    (change (is_digit _) with true; cbv iota; digit_value;
     match goal with
     | |- parse_digits _ ?a = Some (Z.of_N (Npos (Pos.of_uint_acc _ ?b))) =>
         change a with (Zpos b)
     end; apply parse_digits_acc).
Qed.

Lemma parse_digits_nonneg s : forall acc un,
  0 <= acc -> parse_digits s acc = Some un -> 0 <= un.
Proof.
  induction s as [|c s IH]; cbn [parse_digits]; intros acc un Hacc H.
  - now injection H as <-.
  - destruct (is_digit c) eqn:Ed; [|discriminate].
    unfold is_digit in Ed. apply andb_true_iff in Ed as [Hlo _].
    apply Z.leb_le in Hlo. eapply IH; [|exact H]. lia.
Qed.

(** What [ParseInt(s, 10, 32)] accepts is a value of an [int32]. *)
Lemma ParseInt_in_int32 s z : ParseInt s 32 = Some z -> in_int32 z = true.
Proof.
  unfold ParseInt, in_int32. destruct (split_sign s) as [neg body].
  destruct body as [|c body]; [discriminate|].
  destruct (parse_digits (String c body) 0) as [un|] eqn:E; [|discriminate].
  apply parse_digits_nonneg in E; [|lia].
  change (2 ^ (32 - 1)) with 2147483648. change (2 ^ 31) with 2147483648.
  destruct neg.
  - destruct (un <=? 2147483648) eqn:Eu; [|discriminate].
    intros H; injection H as <-. lia.
  - destruct (un <? 2147483648) eqn:Eu; [|discriminate].
    intros H; injection H as <-. lia.
Qed.

Lemma string_of_uint_head d :
  d <> Decimal.Nil ->
  split_sign (NilEmpty.string_of_uint d) = (false, NilEmpty.string_of_uint d)
  /\ NilEmpty.string_of_uint d <> ""
  /\ NilZero.string_of_uint d = NilEmpty.string_of_uint d.
Proof.
  destruct d; intros H; [contradiction | ..]; repeat split; discriminate.
Qed.

Lemma to_uint_not_nil p : Pos.to_uint p <> Decimal.Nil.
Proof.
  intros H. pose proof (DecimalPos.Unsigned.of_to p) as E.
  rewrite H in E. discriminate.
Qed.

Lemma parse_to_uint p :
  parse_digits (NilEmpty.string_of_uint (Pos.to_uint p)) 0 = Some (Zpos p).
Proof.
  now rewrite parse_digits_uint, DecimalPos.Unsigned.of_to.
Qed.

(** The decimal text of an [int32] parses back to the same value. *)
Lemma ParseInt_Itoa z : in_int32 z = true -> ParseInt (Itoa z) 32 = Some z.
Proof.
  unfold in_int32. change (2 ^ 31) with 2147483648. intros Hz.
  apply andb_true_iff in Hz as [Hlo Hhi].
  apply Z.leb_le in Hlo. apply Z.ltb_lt in Hhi.
  destruct z as [|p|p]; [reflexivity | |].
  - unfold Itoa, ParseInt. cbn [Z.to_int NilZero.string_of_int].
    destruct (string_of_uint_head _ (to_uint_not_nil p)) as (Hs & Hne & ->).
    rewrite Hs.
    destruct (NilEmpty.string_of_uint (Pos.to_uint p)) eqn:E; [contradiction|].
    rewrite <- E, parse_to_uint.
    change (2 ^ (32 - 1)) with 2147483648.
    destruct (Z.ltb_spec (Z.pos p) 2147483648); [reflexivity | lia].
  - unfold Itoa, ParseInt. cbn [Z.to_int NilZero.string_of_int split_sign].
    destruct (string_of_uint_head _ (to_uint_not_nil p)) as (_ & Hne & ->).
    destruct (NilEmpty.string_of_uint (Pos.to_uint p)) eqn:E; [contradiction|].
    rewrite <- E, parse_to_uint.
    change (2 ^ (32 - 1)) with 2147483648.
    destruct (Z.leb_spec (Z.pos p) 2147483648); [reflexivity | lia].
Qed.

Lemma Itoa_not_empty z : Itoa z <> "".
Proof.
  unfold Itoa. destruct z as [|p|p]; cbn [Z.to_int NilZero.string_of_int];
    try discriminate.
  destruct (string_of_uint_head _ (to_uint_not_nil p)) as (_ & Hne & ->).
  exact Hne.
Qed.

(* ------------------------------------------------------------------ *)
(** * Further properties of connect *)

(** X8. [getKubeconfigPath] answers only a path that exists, or the
    empty string: a non-empty answer is the flag, the KUBECONFIG variable
    or the default location, and [os.Stat] succeeds on it.  The flag wins
    when it is set and exists; otherwise the variable wins when it is set
    and exists. *)
Theorem kubeconfig_path_exists e flagPath :
  (getKubeconfigPath e flagPath <> "" ->
   stat_ok e (getKubeconfigPath e flagPath) = true
   /\ (getKubeconfigPath e flagPath = flagPath
       \/ getKubeconfigPath e flagPath = getenv_KUBECONFIG e
       \/ getKubeconfigPath e flagPath = default_kubeconfig e))
  /\ (flagPath <> "" -> stat_ok e flagPath = true ->
      getKubeconfigPath e flagPath = flagPath)
  /\ ((flagPath = "" \/ stat_ok e flagPath = false) ->
      getenv_KUBECONFIG e <> "" -> stat_ok e (getenv_KUBECONFIG e) = true ->
      getKubeconfigPath e flagPath = getenv_KUBECONFIG e).
Proof.
  unfold getKubeconfigPath.
  destruct (String.eqb_spec flagPath "") as [Ef|Ef];
    destruct (stat_ok e flagPath) eqn:Sf; cbn [negb andb];
    destruct (String.eqb_spec (getenv_KUBECONFIG e) "") as [Ee|Ee];
    destruct (stat_ok e (getenv_KUBECONFIG e)) eqn:Se; cbn [negb andb];
    destruct (stat_ok e (default_kubeconfig e)) eqn:Sd;
    repeat split; intros; auto; try congruence;
    try (destruct H; congruence).
Qed.

Lemma kubeconfig_path_exists_witness :
  getKubeconfigPath (cluster (everybody_alive fs_good) None) "/tmp/kc"
  = "/tmp/kc".
Proof.
  destruct (kubeconfig_path_exists (cluster (everybody_alive fs_good) None)
              "/tmp/kc") as (_ & H & _).
  apply H; [discriminate | reflexivity].
Defined.

(** X9. When the target of a connect resolves, the scope is the
    namespace flag, or "default" when the flag is empty, and is never
    empty; the kubeconfig path is not empty; a remote port given on the
    command line is the value of its decimal text and fits an int32; the
    local port is the flag when given and the decimal text of the remote
    port plus one otherwise, so it is never empty. *)
Theorem resolve_defaults e cl name t :
  resolve e cl name = Ok t ->
  t_namespace t = (if String.eqb (namespace cl) "" then "default"
                   else namespace cl)
  /\ t_namespace t <> ""
  /\ t_kubeconfigPath t = getKubeconfigPath e (kubeconfig cl)
  /\ t_kubeconfigPath t <> ""
  /\ (remotePort cl <> "" ->
      ParseInt (remotePort cl) 32 = Some (t_remotePort t)
      /\ in_int32 (t_remotePort t) = true)
  /\ t_localPort t = (if String.eqb (localPort cl) "" then Itoa (t_remotePort t + 1)
                      else localPort cl)
  /\ t_localPort t <> "".
Proof.
  unfold resolve. intros H.
  destruct (String.eqb_spec (getKubeconfigPath e (kubeconfig cl)) "") as [Ek|Ek];
    [discriminate|].
  destruct (negb (build_config_ok e _)); [discriminate|].
  destruct (negb (clientset_ok e)); [discriminate|].
  destruct (get_service e _ name) as [svc|]; [|discriminate].
  cbn [negb] in H.
  assert (Hns : (if String.eqb (namespace cl) "" then "default"
                 else namespace cl) <> "").
  { destruct (String.eqb_spec (namespace cl) ""); [discriminate | assumption]. }
  destruct (String.eqb_spec (remotePort cl) "") as [Er|Er]; cbn [negb] in H.
  - destruct (svc_ports svc) as [|port ports]; cbn [negb] in H;
      (destruct (String.eqb (Join _ ",") ""); [discriminate|];
       destruct (list_pods e _ _) as [[|pod pods]|]; try discriminate;
       injection H as <-; cbn [t_namespace t_kubeconfigPath t_localPort
                                t_remotePort];
       destruct (String.eqb_spec (localPort cl) ""); cbn [negb];
       repeat split; auto; try contradiction; apply Itoa_not_empty).
  - destruct (ParseInt (remotePort cl) 32) as [port|] eqn:Ep; [|discriminate].
    cbn [negb] in H.
    destruct (String.eqb (Join _ ",") ""); [discriminate|].
    destruct (list_pods e _ _) as [[|pod pods]|]; try discriminate.
    injection H as <-.
    cbn [t_namespace t_kubeconfigPath t_localPort t_remotePort].
    destruct (String.eqb_spec (localPort cl) ""); cbn [negb];
      repeat split; auto; try (now apply ParseInt_in_int32 in Ep);
      apply Itoa_not_empty.
Qed.

Lemma resolve_defaults_witness :
  t_namespace (mkTarget "/home/op/.kube/config" "prod" "db-0" "3307" 3306)
  = "prod"
  /\ t_localPort (mkTarget "/home/op/.kube/config" "prod" "db-0" "3307" 3306)
     <> "".
Proof.
  destruct (resolve_defaults (cluster (everybody_alive fs_good) (Some 4242))
              connect_db "db"
              (mkTarget "/home/op/.kube/config" "prod" "db-0" "3307" 3306)
              eq_refl) as (Hns & _ & _ & _ & _ & _ & Hlp).
  split; [exact Hns | exact Hlp].
Defined.

Lemma resolve_not_save_error e cl name cause :
  resolve e cl name <> Err (ErrSaveConnInfo cause).
Proof.
  unfold resolve. intros H.
  repeat break_inner H; discriminate.
Qed.

(** The three ways a connect runs: it stops before the registry is
    consulted or at the duplicate check, leaving the world as it is (or
    with the help text printed); or it goes on to one of the two
    tunnel-creating functions. *)
Lemma connect_cases e cl w :
  (args cl = [] /\ NewConnectCmd e cl w = (None, log (EvPrint MsgHelp) w))
  \/ (exists err, NewConnectCmd e cl w = (Some err, w)
                  /\ forall cause, err <> ErrSaveConnInfo cause)
  \/ (exists name t,
        args cl = [name] /\ resolve e cl name = Ok t
        /\ (forall c, findConnection (fs (sys e)) name (t_namespace t)
                        (registry w) = Ok c -> Status c <> "active")
        /\ NewConnectCmd e cl w
           = if background cl
             then createBackgroundPortForward e (t_namespace t) name
                    (t_podName t) (t_localPort t) (t_remotePort t)
                    (t_kubeconfigPath t) w
             else createForegroundPortForward e (t_namespace t) (t_podName t)
                    (t_localPort t) (t_remotePort t) w).
Proof.
  unfold NewConnectCmd.
  destruct (args cl) as [|name [|? ?]]; [now left | | right; left].
  2: { eexists; split; [reflexivity | discriminate]. }
  destruct (resolve e cl name) as [t|err] eqn:Er.
  2: { right; left. eexists; split; [reflexivity|].
       intros cause ->. now apply resolve_not_save_error in Er. }
  destruct (findConnection _ _ _ _) as [existing|err] eqn:Ef.
  - destruct (String.eqb_spec (Status existing) "active") as [Es|Es].
    + right; left. eexists; split; [reflexivity | discriminate].
    + right; right. exists name, t.
      split; [reflexivity|]. split; [exact Er|]. split; [|reflexivity].
      intros c Hc. rewrite Ef in Hc. now injection Hc as <-.
  - right; right. exists name, t.
    split; [reflexivity|]. split; [exact Er|]. split; [|reflexivity].
    intros c Hc. rewrite Ef in Hc. discriminate.
Qed.

(** X10. A background connect that returns nil has resolved its target,
    spawned a child that answered the probe, and rewritten the registry
    file with what [json.MarshalIndent] writes for the loaded records
    followed by one new record: status "active", the PID of the child,
    and the name, scope, ports, pod and kubeconfig of the target.  Read
    back, the file holds the loaded records and the new one with its
    strings coerced to valid UTF-8.  The connect emitted the spawn and the
    success message and nothing else. *)
Theorem connect_success e cl w :
  fst (NewConnectCmd e cl w) = None ->
  background cl = true ->
  args cl <> [] ->
  exists name t execPath pid s,
    args cl = [name] /\ resolve e cl name = Ok t
    /\ executable e = Some execPath /\ start e = Some pid
    /\ isProcessRunning (sys e) pid = true
    /\ loadConnections (fs_save e) (registry w) = Ok s
    /\ NewConnectCmd e cl w
       = (None,
          mkWorld
            (Some (Text (json_MarshalIndent
                           (append s (mkConn pid name (t_namespace t)
                                        (t_localPort t) (t_remotePort t)
                                        (t_podName t) (t_kubeconfigPath t)
                                        "active")))))
            (trace w
             ++ [EvSpawn pid (daemon_argv execPath (t_kubeconfigPath t)
                                (t_namespace t) name (t_podName t)
                                (t_localPort t) (t_remotePort t));
                 EvPrint (MsgStarted
                            (mkConn pid name (t_namespace t) (t_localPort t)
                               (t_remotePort t) (t_podName t)
                               (t_kubeconfigPath t) "active"))])%list)
    /\ (in_int pid = true -> in_int32 (t_remotePort t) = true ->
        registry_records (registry (snd (NewConnectCmd e cl w)))
        = (elems s
           ++ [coerced (mkConn pid name (t_namespace t) (t_localPort t)
                          (t_remotePort t) (t_podName t) (t_kubeconfigPath t)
                          "active")])%list).
Proof.
  intros Hnil Hbg Hargs.
  destruct (connect_cases e cl w)
    as [[Ha _] | [(err & Herr & _) | (name & t & Ha & Hres & _ & Hrun)]].
  - contradiction.
  - rewrite Herr in Hnil. discriminate.
  - rewrite Hbg, background_spec in Hrun. rewrite Hrun in Hnil |- *.
    destruct (executable e) as [execPath|]; [|discriminate].
    destruct (start e) as [pid|]; [|discriminate].
    cbn zeta in *.
    destruct (isProcessRunning (sys e) pid) eqn:Ealive; [|discriminate].
    unfold addConnection in *.
    destruct (loadConnections (fs_save e) (registry w)) as [s|] eqn:El;
      [|discriminate].
    destruct (saveConnections _ _ _) as [[err|] f'] eqn:Es; [discriminate|].
    apply save_inv in Es as [_ ->].
    exists name, t, execPath, pid, s. repeat split; auto.
    intros Hpid Hport. cbn [snd registry].
    apply records_appended; [now apply load_inv in El|].
    unfold conn_in_range; cbn. now rewrite Hpid, Hport.
Qed.

Lemma connect_success_witness :
  registry_records
    (registry (snd (NewConnectCmd (cluster (everybody_alive fs_good) (Some 4242))
                      connect_db (holding [web_record 7]))))
  = [web_record 7; db_record 4242 "active"].
Proof.
  destruct (connect_success (cluster (everybody_alive fs_good) (Some 4242))
              connect_db (holding [web_record 7]))
    as (name & t & execPath & pid & s & Ha & Hr & _ & Hs & _ & Hl & _ & Hrec).
  - reflexivity.
  - reflexivity.
  - discriminate.
  - injection Ha as <-. injection Hs as <-.
    vm_compute in Hr. injection Hr as <-.
    vm_compute in Hl. injection Hl as <-.
    exact (Hrec eq_refl eq_refl).
Defined.

Lemma background_registry_kept e ns name pod lp rp kc w err :
  fst (createBackgroundPortForward e ns name pod lp rp kc w) = Some err ->
  (forall cause, err <> ErrSaveConnInfo cause) ->
  registry (snd (createBackgroundPortForward e ns name pod lp rp kc w))
  = registry w.
Proof.
  rewrite background_spec.
  destruct (executable e); [|reflexivity].
  destruct (start e) as [pid|]; [|reflexivity].
  cbn zeta. destruct (isProcessRunning (sys e) pid); [|reflexivity].
  destruct (addConnection _ _ _) as [[cause|] f']; cbn [fst snd].
  - intros H Hne. injection H as <-. now destruct (Hne cause).
  - discriminate.
Qed.

(** X11. A connect writes the registry file only on the path that adds
    the record: whenever it returns an error other than "failed to save
    connection info", the file is exactly as it was.  In foreground mode
    ([--background=false]) the file is as it was whatever the result. *)
Theorem connect_error_keeps_registry e cl w :
  (forall err, fst (NewConnectCmd e cl w) = Some err ->
               (forall cause, err <> ErrSaveConnInfo cause) ->
               registry (snd (NewConnectCmd e cl w)) = registry w)
  /\ (background cl = false ->
      registry (snd (NewConnectCmd e cl w)) = registry w).
Proof.
  destruct (connect_cases e cl w)
    as [[_ Hrun] | [(err0 & Hrun & _) | (name & t & _ & _ & _ & Hrun)]];
    rewrite Hrun; cbn [fst snd]; try (split; reflexivity).
  destruct (background cl).
  - split; [|discriminate].
    intros err H Hne. now apply (background_registry_kept _ _ _ _ _ _ _ _ err).
  - split; intros; apply foreground_registry.
Qed.

Lemma connect_error_keeps_registry_witness :
  registry (snd (NewConnectCmd (cluster (nobody_alive fs_good) (Some 4242))
                   connect_db (holding [web_record 7])))
  = registry (holding [web_record 7]).
Proof.
  destruct (connect_error_keeps_registry
              (cluster (nobody_alive fs_good) (Some 4242)) connect_db
              (holding [web_record 7])) as [H _].
  eapply H.
  - vm_compute. reflexivity.
  - intros cause. discriminate.
Defined.

(** Case analysis on membership in a short explicit list of events. *)
Ltac in_events :=
  repeat match goal with
         | H : In _ [] |- _ => destruct H
         | H : In _ (_ :: _) |- _ => destruct H as [H|H]
         | H : EvPrint _ = _ |- _ => discriminate H
         | H : EvSpawn _ _ = EvSignal _ _ |- _ => discriminate H
         | H : EvSignal _ _ = EvSpawn _ _ |- _ => discriminate H
         | H : EvTunnelStart _ _ _ _ = _ |- _ => discriminate H
         | H : EvTunnelStop = _ |- _ => discriminate H
         | H : EvSpawn _ _ = EvSpawn _ _ |- _ => injection H as <- <-
         | H : EvSignal _ _ = EvSignal _ _ |- _ => injection H as <- <-
         end.

(** X12. The only signal a connect ever sends is SIGKILL to the child
    it has just spawned, and only when it returns "failed to save
    connection info"; it spawns at most one process, the one [cmd.Start]
    answered, and none in foreground mode. *)
Theorem connect_signals_only_its_child e cl w :
  exists evs,
    trace (snd (NewConnectCmd e cl w)) = (trace w ++ evs)%list
    /\ (forall pid sig, In (EvSignal pid sig) evs ->
          sig = SIGKILL /\ start e = Some pid
          /\ (exists argv, In (EvSpawn pid argv) evs)
          /\ exists cause,
               fst (NewConnectCmd e cl w) = Some (ErrSaveConnInfo cause))
    /\ (forall pid argv, In (EvSpawn pid argv) evs ->
          background cl = true /\ start e = Some pid)
    /\ (forall pid argv pid' argv',
          In (EvSpawn pid argv) evs -> In (EvSpawn pid' argv') evs ->
          pid' = pid /\ argv' = argv).
Proof.
  destruct (connect_cases e cl w)
    as [[_ Hrun] | [(err0 & Hrun & _) | (name & t & _ & _ & _ & Hrun)]];
    rewrite Hrun; cbn [fst snd].
  - exists [EvPrint MsgHelp]. split; [reflexivity|].
    repeat split; intros; in_events.
  - exists []. rewrite app_nil_r. split; [reflexivity|].
    repeat split; intros; in_events.
  - destruct (background cl).
    + rewrite background_spec.
      destruct (executable e) as [execPath|];
        [|exists []; rewrite app_nil_r; split; [reflexivity|];
          repeat split; intros; in_events].
      destruct (start e) as [pid|];
        [|exists []; rewrite app_nil_r; split; [reflexivity|];
          repeat split; intros; in_events].
      cbn zeta. destruct (isProcessRunning (sys e) pid).
      * destruct (addConnection _ _ _) as [[cause|] f']; cbn [fst snd trace];
          eexists; (split; [reflexivity|]);
          repeat split; intros; in_events; eauto.
        eexists. left. reflexivity.
      * cbn [fst snd trace]. eexists; (split; [reflexivity|]).
        repeat split; intros; in_events; eauto.
    + unfold createForegroundPortForward.
      destruct (foreground e); cbn [fst snd trace log].
      * exists []. rewrite app_nil_r. split; [reflexivity|].
        repeat split; intros; in_events.
      * exists []. rewrite app_nil_r. split; [reflexivity|].
        repeat split; intros; in_events.
      * eexists; split; [reflexivity|]. repeat split; intros; in_events.
      * rewrite <- app_assoc. eexists; split; [reflexivity|].
        cbn [app]. repeat split; intros; in_events.
Qed.

Lemma connect_signals_only_its_child_witness :
  exists cause,
    fst (NewConnectCmd (cluster (everybody_alive fs_no_write) (Some 4242))
           connect_db (holding [web_record 7]))
    = Some (ErrSaveConnInfo cause).
Proof.
  destruct (connect_signals_only_its_child
              (cluster (everybody_alive fs_no_write) (Some 4242)) connect_db
              (holding [web_record 7])) as (evs & Ht & Hs & _).
  vm_compute in Ht. subst evs.
  destruct (Hs 4242 SIGKILL) as (_ & _ & _ & H).
  - right. left. reflexivity.
  - exact H.
Defined.

(* ------------------------------------------------------------------ *)
(** * From the supervisor to the daemon *)

(** X13. The command line that [createBackgroundPortForward] builds is
    one the daemon entry point accepts and reads back exactly: with a
    non-empty kubeconfig path, service, pod and local port and a remote
    port that fits an int32, the flags parse, the mandatory-flag check
    passes, the decimal text of the remote port parses to the same
    number, and (once the kubeconfig loads) the runtime is started with
    the supervisor's namespace, pod, ports and service. *)
Theorem daemon_reads_supervisor_argv e execPath kc ns name pod lp rp w :
  kc <> "" -> name <> "" -> pod <> "" -> lp <> "" ->
  in_int32 rp = true ->
  daemon_cmdline (daemon_argv execPath kc ns name pod lp rp)
  = Some (mkDaemonCmdLine (Some kc) (Some ns) (Some name) (Some pod)
            (Some lp) (Some (Itoa rp)))
  /\ NewDaemonPortForwardCmd e
       (mkDaemonCmdLine (Some kc) (Some ns) (Some name) (Some pod)
          (Some lp) (Some (Itoa rp))) w
     = if dm_build_config_ok e kc
       then runPortForwardDaemon e ns pod lp rp name w
       else (Some ErrBuildConfig, w).
Proof.
  intros Hkc Hname Hpod Hlp Hrp. split; [reflexivity|].
  unfold NewDaemonPortForwardCmd. cbn [StringVar flag_kubeconfig flag_namespace
    flag_service flag_pod flag_localport flag_remoteport].
  apply String.eqb_neq in Hkc, Hname, Hpod, Hlp.
  pose proof (Itoa_not_empty rp) as Hrpne. apply String.eqb_neq in Hrpne.
  rewrite Hkc, Hname, Hpod, Hlp, Hrpne. cbn [orb].
  rewrite (ParseInt_Itoa _ Hrp).
  now destruct (dm_build_config_ok e kc).
Qed.

Lemma daemon_reads_supervisor_argv_witness :
  daemon_cmdline
    (daemon_argv "/usr/local/bin/bugx" "/home/op/.kube/config" "prod" "db"
       "db-0" "3307" 3306)
  = Some (mkDaemonCmdLine (Some "/home/op/.kube/config") (Some "prod")
            (Some "db") (Some "db-0") (Some "3307") (Some (Itoa 3306)))
  /\ NewDaemonPortForwardCmd (daemon_env fs_good TermSignal)
       (mkDaemonCmdLine (Some "/home/op/.kube/config") (Some "prod")
          (Some "db") (Some "db-0") (Some "3307") (Some (Itoa 3306)))
       empty_registry
     = if dm_build_config_ok (daemon_env fs_good TermSignal)
            "/home/op/.kube/config"
       then runPortForwardDaemon (daemon_env fs_good TermSignal)
              "prod" "db-0" "3307" 3306 "db" empty_registry
       else (Some ErrBuildConfig, empty_registry).
Proof.
  apply (daemon_reads_supervisor_argv (daemon_env fs_good TermSignal)
           "/usr/local/bin/bugx" "/home/op/.kube/config" "prod" "db" "db-0"
           "3307" 3306 empty_registry); try discriminate.
  reflexivity.
Defined.

(* ------------------------------------------------------------------ *)
(** * The listing *)

Lemma reconcile_shown e l : forall active f,
  elems (fst (reconcile e l active f))
  = (elems active ++ filter (fun c => isProcessRunning e (PID c)) l)%list.
Proof.
  induction l as [|c l IH]; intros active f; cbn [reconcile filter].
  - now rewrite app_nil_r.
  - destruct (isProcessRunning e (PID c)).
    + rewrite IH. cbn [append elems]. now rewrite <- app_assoc.
    + apply IH.
Qed.

Lemma update_erase e name ns st f :
  fs_works e ->
  map erase_status
      (registry_records (snd (updateConnectionStatus e name ns st f)))
  = map erase_status (registry_records f).
Proof.
  intros Hworks. rewrite (update_records _ _ _ _ _ Hworks).
  destruct (mark_first name ns (coerce st) (registry_records f)) eqn:Em;
    [|reflexivity].
  now apply mark_first_erase in Em.
Qed.

Lemma reconcile_erase e l : forall active f,
  fs_works (fs e) ->
  map erase_status (registry_records (snd (reconcile e l active f)))
  = map erase_status (registry_records f).
Proof.
  induction l as [|c l IH]; intros active f Hworks; cbn [reconcile];
    [reflexivity|].
  destruct (isProcessRunning e (PID c)); [now apply IH|].
  rewrite IH by assumption. now apply update_erase.
Qed.

(** X14. A listing whose load fails returns "failed to load
    connections" and leaves the world as it is.  Otherwise it returns nil
    and displays exactly the loaded records whose PID answers the probe,
    in their order; and when the file system works it neither adds nor
    removes a record nor changes any field but statuses. *)
Theorem list_shows_live_records e w :
  match loadConnections (fs e) (registry w) with
  | Err err =>
      NewConnectListCmd e w = (Some (ErrLoadConnections err), w)
  | Ok s =>
      fst (NewConnectListCmd e w) = None
      /\ trace (snd (NewConnectListCmd e w))
         = (trace w
            ++ [EvPrint (MsgConnections
                           (filter (fun c => isProcessRunning e (PID c))
                                   (elems s)))])%list
      /\ (fs_works (fs e) ->
          map erase_status
              (registry_records (registry (snd (NewConnectListCmd e w))))
          = map erase_status (elems s))
  end.
Proof.
  unfold NewConnectListCmd.
  destruct (loadConnections (fs e) (registry w)) as [s|err] eqn:El;
    [|reflexivity].
  pose proof (reconcile_shown e (elems s) nil_slice (registry w)) as Hshown.
  pose proof (reconcile_erase e (elems s) nil_slice (registry w)) as Herase.
  destruct (reconcile e (elems s) nil_slice (registry w)) as [active f'].
  cbn [fst snd trace log registry with_registry elems app] in *.
  rewrite Hshown. repeat split.
  intros Hworks. rewrite (Herase Hworks).
  now rewrite (load_records _ _ _ El).
Qed.

Lemma list_shows_live_records_witness :
  map erase_status
      (registry_records
         (registry (snd (NewConnectListCmd (nobody_alive fs_good)
                           (holding [db_record 4242 "active"; web_record 7])))))
  = map erase_status [db_record 4242 "active"; web_record 7].
Proof.
  pose proof (list_shows_live_records (nobody_alive fs_good)
                (holding [db_record 4242 "active"; web_record 7])) as H.
  assert (El : loadConnections (fs (nobody_alive fs_good))
                 (registry (holding [db_record 4242 "active"; web_record 7]))
               = Ok (mk_slice [db_record 4242 "active"; web_record 7]))
    by reflexivity.
  rewrite El in H. destruct H as (_ & _ & H).
  apply H. repeat split.
Defined.

Lemma mark_first_skip name ns st l1 c l2 :
  (forall x, In x l1 -> same_key name ns x = false) ->
  same_key name ns c = true ->
  mark_first name ns st (l1 ++ c :: l2)
  = Some (l1 ++ with_status st c :: l2)%list.
Proof.
  intros Hl1 Hc. induction l1 as [|x l1 IH]; cbn.
  - now rewrite Hc.
  - rewrite (Hl1 x (or_introl eq_refl)), IH; [reflexivity|].
    intros y Hy. apply Hl1. now right.
Qed.

Lemma key_reclassify e c : key (reclassify e c) = key c.
Proof. unfold reclassify. now destruct (isProcessRunning e (PID c)). Qed.

Lemma reconcile_records e l : forall pre active f,
  fs_works (fs e) ->
  NoDup (map key (pre ++ l)) ->
  registry_records f = (map (reclassify e) pre ++ l)%list ->
  registry_records (snd (reconcile e l active f))
  = map (reclassify e) (pre ++ l).
Proof.
  induction l as [|c l IH]; intros pre active f Hworks Hnd Hrec;
    cbn [reconcile snd].
  - now rewrite app_nil_r in *.
  - assert (Hstep : forall f',
               registry_records f'
               = (map (reclassify e) (pre ++ [c]) ++ l)%list ->
               forall active',
                 registry_records (snd (reconcile e l active' f'))
                 = map (reclassify e) (pre ++ c :: l)).
    { intros f' Hf' active'.
      replace (pre ++ c :: l)%list with ((pre ++ [c]) ++ l)%list
        by now rewrite <- app_assoc.
      apply IH; auto. now rewrite <- app_assoc. }
    destruct (isProcessRunning e (PID c)) eqn:Ealive.
    + apply Hstep. rewrite Hrec, map_app, <- app_assoc. cbn.
      unfold reclassify. now rewrite Ealive.
    + apply Hstep. rewrite (update_records_stopped _ _ _ _ Hworks), Hrec.
      rewrite mark_first_skip.
      * rewrite map_app, <- app_assoc. cbn. unfold reclassify at 3.
        now rewrite Ealive.
      * intros x Hx. apply in_map_iff in Hx as (y & <- & Hy).
        apply not_true_iff_false. intros Hk. apply same_key_iff in Hk.
        rewrite key_reclassify in Hk.
        rewrite map_app in Hnd. cbn in Hnd.
        apply NoDup_remove_2 in Hnd. apply Hnd.
        apply in_or_app. left. apply in_map_iff. exists y. split; auto.
      * unfold same_key. now rewrite !String.eqb_refl.
Qed.

(** X15. When the file system works and no two loaded records share a
    (name, scope), a listing heals the registry in one pass: afterwards
    the file holds the same records in the same order, each one unchanged
    if its PID answers the probe and with status "stopped" if it does
    not. *)
Theorem list_reclassifies_dead e w s :
  loadConnections (fs e) (registry w) = Ok s ->
  fs_works (fs e) ->
  NoDup (map key (elems s)) ->
  registry_records (registry (snd (NewConnectListCmd e w)))
  = map (reclassify e) (elems s).
Proof.
  intros Hl Hworks Hnd. unfold NewConnectListCmd. rewrite Hl.
  pose proof (reconcile_records e (elems s) [] nil_slice (registry w)
                Hworks Hnd) as Hrec.
  destruct (reconcile e (elems s) nil_slice (registry w)) as [active f'].
  cbn [snd registry log with_registry] in *.
  apply Hrec. now rewrite (load_records _ _ _ Hl).
Qed.

Lemma list_reclassifies_dead_witness :
  registry_records
    (registry (snd (NewConnectListCmd
                      (mkSysEnv fs_good (fun pid => Z.eqb pid 7)
                                (fun _ => true) (fun _ => true))
                      (holding [db_record 4242 "active"; web_record 7]))))
  = map (reclassify (mkSysEnv fs_good (fun pid => Z.eqb pid 7)
                              (fun _ => true) (fun _ => true)))
        (elems (mk_slice [db_record 4242 "active"; web_record 7])).
Proof.
  apply (list_reclassifies_dead
           (mkSysEnv fs_good (fun pid => Z.eqb pid 7)
                     (fun _ => true) (fun _ => true))
           (holding [db_record 4242 "active"; web_record 7])
           (mk_slice [db_record 4242 "active"; web_record 7])).
  - reflexivity.
  - repeat split.
  - repeat constructor; cbn; intuition discriminate.
Defined.

(* ------------------------------------------------------------------ *)
(** * Further properties of disconnect *)

(** A disconnect whose lookup fails leaves the world as it is. *)
Lemma disconnect_not_found e cl w name err :
  d_args cl = [name] ->
  findConnection (fs e) name (disconnect_scope cl) (registry w) = Err err ->
  NewDisconnectCmd e cl w
  = (Some (ErrNoSuchConnection (disconnect_scope cl) name), w).
Proof.
  intros Ha Hf. unfold NewDisconnectCmd. fold (disconnect_scope cl).
  now rewrite Ha, Hf.
Qed.

Lemma find_after_remove_fails e e2 name ns f s :
  loadConnections e f = Ok s -> write_out e = WriteOk ->
  exists err,
    findConnection e2 name ns (snd (removeConnection e name ns f)) = Err err.
Proof.
  intros Hl Hw. unfold findConnection.
  destruct (loadConnections e2 (snd (removeConnection e name ns f)))
    as [s2|err] eqn:El2; [|eauto].
  assert (Hr2 : fs_reads e2) by now apply load_inv in El2.
  rewrite (load_after_remove _ _ _ _ _ _ Hl Hw Hr2) in El2.
  injection El2 as <-. rewrite elems_collect, others_no_match. eauto.
Qed.

(** A disconnect that returns nil found a record and left the registry
    to [removeConnection]. *)
Lemma disconnect_success_registry e cl w name :
  d_args cl = [name] ->
  fst (NewDisconnectCmd e cl w) = None ->
  exists s,
    loadConnections (fs e) (registry w) = Ok s
    /\ registry (snd (NewDisconnectCmd e cl w))
       = snd (removeConnection (fs e) name (disconnect_scope cl) (registry w)).
Proof.
  intros Ha. unfold NewDisconnectCmd. fold (disconnect_scope cl). rewrite Ha.
  destruct (findConnection _ _ _ _) as [c|err] eqn:Ef; [|discriminate].
  apply find_load in Ef as (s & Hl & _). intros H. exists s. split; [exact Hl|].
  revert H.
  destruct (negb (isProcessRunning e (PID c))); [reflexivity|].
  cbn [os_FindProcess].
  destruct (sigterm_ok e (PID c)).
  - intros _. now rewrite remove_and_report_registry.
  - destruct (sigkill_ok e (PID c)); [|discriminate].
    intros _. now rewrite remove_and_report_registry.
Qed.

(** X16. Disconnect is not repeatable: after a disconnect that returned
    nil and whose rewrite of the registry was accepted, a second
    disconnect of the same (name, scope), in any environment, returns
    "connection not found" and leaves the world as the first one left it:
    nothing is signalled, printed or written. *)
Theorem disconnect_twice e e2 cl w name :
  d_args cl = [name] ->
  fst (NewDisconnectCmd e cl w) = None ->
  write_out (fs e) = WriteOk ->
  NewDisconnectCmd e2 cl (snd (NewDisconnectCmd e cl w))
  = (Some (ErrNoSuchConnection (disconnect_scope cl) name),
     snd (NewDisconnectCmd e cl w)).
Proof.
  intros Ha Hnil Hw.
  destruct (disconnect_success_registry e cl w name Ha Hnil) as (s & Hl & Hreg).
  destruct (find_after_remove_fails (fs e) (fs e2) name (disconnect_scope cl)
              (registry w) s Hl Hw) as [err Herr].
  apply (disconnect_not_found e2 cl _ name err Ha).
  now rewrite Hreg.
Qed.

Lemma disconnect_twice_witness :
  NewDisconnectCmd (nobody_alive fs_no_write) disconnect_db
    (snd (NewDisconnectCmd (everybody_alive fs_good) disconnect_db
            (holding [web_record 7; db_record 1000 "active"])))
  = (Some (ErrNoSuchConnection (disconnect_scope disconnect_db) "db"),
     snd (NewDisconnectCmd (everybody_alive fs_good) disconnect_db
            (holding [web_record 7; db_record 1000 "active"]))).
Proof.
  apply (disconnect_twice (everybody_alive fs_good) (nobody_alive fs_no_write)
           disconnect_db (holding [web_record 7; db_record 1000 "active"])
           "db").
  - reflexivity.
  - reflexivity.
  - reflexivity.
Defined.

(** X17. After such a disconnect a connect for the same (name, scope)
    is never refused as a duplicate, in any environment: it does not
    return "already exists". *)
Theorem connect_after_disconnect e e' cl cl' w name ns' name' lp :
  d_args cl = [name] ->
  fst (NewDisconnectCmd e cl w) = None ->
  write_out (fs e) = WriteOk ->
  args cl' = [name] ->
  (if String.eqb (namespace cl') "" then "default" else namespace cl')
  = disconnect_scope cl ->
  fst (NewConnectCmd e' cl' (snd (NewDisconnectCmd e cl w)))
  <> Some (ErrAlreadyExists ns' name' lp).
Proof.
  intros Ha Hnil Hw Ha' Hscope.
  destruct (disconnect_success_registry e cl w name Ha Hnil) as (s & Hl & Hreg).
  unfold NewConnectCmd. rewrite Ha'.
  destruct (resolve e' cl' name) as [t|err] eqn:Er; cbn [fst].
  - destruct (find_after_remove_fails (fs e) (fs (sys e')) name
                (disconnect_scope cl) (registry w) s Hl Hw) as [err Herr].
    assert (Hfind : findConnection (fs (sys e')) name (t_namespace t)
                      (registry (snd (NewDisconnectCmd e cl w))) = Err err)
      by now rewrite (resolve_scope _ _ _ _ Er), Hscope, Hreg.
    rewrite Hfind. apply unblocked_not_already.
  - intros H; injection H as ->. now apply resolve_not_already in Er.
Qed.

Lemma connect_after_disconnect_witness :
  fst (NewConnectCmd (cluster (everybody_alive fs_good) (Some 4243)) connect_db
         (snd (NewDisconnectCmd (everybody_alive fs_good) disconnect_db
                 (holding [db_record 1000 "active"]))))
  <> Some (ErrAlreadyExists "prod" "db" "3307").
Proof.
  apply (connect_after_disconnect (everybody_alive fs_good)
           (cluster (everybody_alive fs_good) (Some 4243))
           disconnect_db connect_db (holding [db_record 1000 "active"]) "db").
  - reflexivity.
  - reflexivity.
  - reflexivity.
  - reflexivity.
  - reflexivity.
Defined.

(** X18. On a live worker the outcome of a disconnect follows the
    signals.  When the SIGTERM call, or after its failure the SIGKILL
    call, returns nil, the registry is what [removeConnection] leaves and
    its error, if any, is returned as "failed to remove connection".
    When both calls fail the result is "failed to kill process" and the
    registry file is not touched. *)
Theorem disconnect_live_outcome e cl w name c :
  d_args cl = [name] ->
  findConnection (fs e) name (disconnect_scope cl) (registry w) = Ok c ->
  isProcessRunning e (PID c) = true ->
  (sigterm_ok e (PID c) || sigkill_ok e (PID c) = true ->
   fst (NewDisconnectCmd e cl w)
   = option_map ErrRemoveConnection
       (fst (removeConnection (fs e) name (disconnect_scope cl) (registry w)))
   /\ registry (snd (NewDisconnectCmd e cl w))
      = snd (removeConnection (fs e) name (disconnect_scope cl) (registry w)))
  /\ (sigterm_ok e (PID c) || sigkill_ok e (PID c) = false ->
      fst (NewDisconnectCmd e cl w) = Some (ErrKillProcess (PID c))
      /\ registry (snd (NewDisconnectCmd e cl w)) = registry w).
Proof.
  intros Ha Hf Halive. unfold NewDisconnectCmd. fold (disconnect_scope cl).
  rewrite Ha, Hf, Halive. cbn [negb os_FindProcess].
  unfold remove_and_report.
  destruct (sigterm_ok e (PID c)); cbn [orb].
  - split; [|discriminate]. intros _. cbn [registry log].
    now destruct (removeConnection _ _ _ _) as [[err|] f'].
  - destruct (sigkill_ok e (PID c)).
    + split; [|discriminate]. intros _. cbn [registry log].
      now destruct (removeConnection _ _ _ _) as [[err|] f'].
    + split; [discriminate|]. intros _. now split.
Qed.

Lemma disconnect_live_outcome_witness :
  fst (NewDisconnectCmd (term_refused fs_no_write) disconnect_db
         (holding [db_record 1000 "active"]))
  = Some (ErrRemoveConnection ErrWriteFile)
  /\ registry (snd (NewDisconnectCmd (term_refused fs_no_write) disconnect_db
                      (holding [db_record 1000 "active"])))
     = registry (holding [db_record 1000 "active"]).
Proof.
  destruct (disconnect_live_outcome (term_refused fs_no_write) disconnect_db
              (holding [db_record 1000 "active"]) "db"
              (db_record 1000 "active") eq_refl eq_refl eq_refl) as [H _].
  destruct (H eq_refl) as [Hr Hf]. split; [exact Hr | exact Hf].
Defined.

(* ------------------------------------------------------------------ *)
(** * Further properties of the daemon *)

(** X19. The daemon leaves the registry file alone unless its tunnel
    became ready: when the first wait ends with a tunnel error or the
    timeout, and equally when the flags are incomplete, the kubeconfig
    does not load or the remote port is not a decimal int32, the entry
    point returns an error and the file is as it was.  In the last
    three cases nothing at all has happened: the tunnel was not
    started. *)
Theorem daemon_untouched_until_ready e cl w :
  (on_start e <> TunnelReady ->
   fst (NewDaemonPortForwardCmd e cl w) <> None
   /\ registry (snd (NewDaemonPortForwardCmd e cl w)) = registry w)
  /\ ((not_given (flag_kubeconfig cl) || not_given (flag_service cl)
       || not_given (flag_pod cl) || not_given (flag_localport cl)
       || not_given (flag_remoteport cl) = true
       \/ dm_build_config_ok e (StringVar (flag_kubeconfig cl) "") = false
       \/ ParseInt (StringVar (flag_remoteport cl) "") 32 = None) ->
      fst (NewDaemonPortForwardCmd e cl w) <> None
      /\ snd (NewDaemonPortForwardCmd e cl w) = w).
Proof.
  unfold NewDaemonPortForwardCmd, not_given.
  destruct (_ || _ || _ || _ || _)%bool eqn:Eflags; cbn [fst snd].
  { repeat split; discriminate. }
  destruct (dm_build_config_ok e _) eqn:Ecfg; cbn [negb fst snd].
  2: { repeat split; discriminate. }
  destruct (ParseInt _ 32) as [rp|] eqn:Eport; cbn [fst snd].
  2: { repeat split; discriminate. }
  split.
  - intros Hstart. unfold runPortForwardDaemon.
    destruct (on_start e); [contradiction | |]; cbn; split;
      (discriminate || reflexivity).
  - intros [H | [H | H]]; discriminate.
Qed.

Lemma daemon_untouched_until_ready_witness :
  registry (snd (NewDaemonPortForwardCmd
                   (mkDaemonEnv fs_good (fun _ => true) 4242 ReadyTimeout
                                TermSignal)
                   (daemon_db (Some "prod"))
                   (holding [db_record 4242 "active"])))
  = registry (holding [db_record 4242 "active"]).
Proof.
  destruct (daemon_untouched_until_ready
              (mkDaemonEnv fs_good (fun _ => true) 4242 ReadyTimeout TermSignal)
              (daemon_db (Some "prod"))
              (holding [db_record 4242 "active"])) as [H _].
  destruct H as [_ Hr]; [discriminate | exact Hr].
Defined.

Lemma mark_first_members name ns st l l' :
  mark_first name ns st l = Some l' ->
  List.length l' = List.length l
  /\ forall x, In x l' ->
       In x l \/ exists c, In c l /\ same_key name ns c = true
                           /\ x = with_status st c.
Proof.
  revert l'. induction l as [|c l IH]; cbn; intros l' H; [discriminate|].
  destruct (same_key name ns c) eqn:Ec.
  - injection H as <-. split; [reflexivity|].
    intros x [<- | Hx]; [right; exists c | left]; auto.
  - destruct (mark_first name ns st l) as [l''|]; [|discriminate].
    injection H as <-. destruct (IH _ eq_refl) as [Hlen Hmem].
    split; [cbn; now rewrite Hlen|].
    intros x [<- | Hx]; [now left; left|].
    destruct (Hmem x Hx) as [Hin | (c0 & Hin & Hk & ->)]; [now left; right|].
    right. exists c0. auto.
Qed.

(** What is in the registry after a write of [s], whatever the write
    did: the records that were there, the records of [s], or none. *)
Lemma records_after_save e s f :
  forallb conn_stored (elems s) = true ->
  registry_records (snd (saveConnections e s f)) = registry_records f
  \/ registry_records (snd (saveConnections e s f)) = elems s
  \/ registry_records (snd (saveConnections e s f)) = [].
Proof.
  intros Hst.
  destruct (save_file_cases e s f) as [-> | [-> | [-> | ->]]]; auto.
  right; left. now apply records_rewritten.
Qed.

Lemma mark_first_stored name ns l l' :
  mark_first name ns "stopped" l = Some l' ->
  forallb conn_stored l = true -> forallb conn_stored l' = true.
Proof.
  intros Hm Hst.
  pose proof (mark_first_coerced _ _ _ _ _ Hst Hm) as Hc.
  rewrite coerce_stopped, Hm in Hc. injection Hc as Hc. rewrite Hc.
  apply coerced_stored.
  exact (mark_first_in_range _ _ _ _ _ Hm (stored_in_range _ Hst)).
Qed.

(** X20. The daemon never adds a record, in any environment.  Every
    record the registry holds after a run of the daemon entry point was
    there before, or is the "stopped" copy of a record of the daemon's
    own (service, namespace) that was there before; and there are no more
    records than before. *)
Theorem daemon_never_adds e cl w :
  (List.length (registry_records (registry (snd (NewDaemonPortForwardCmd e cl w))))
   <= List.length (registry_records (registry w)))%nat
  /\ forall x,
       In x (registry_records (registry (snd (NewDaemonPortForwardCmd e cl w)))) ->
       In x (registry_records (registry w))
       \/ exists c, In c (registry_records (registry w))
                    /\ same_key (StringVar (flag_service cl) "")
                                (StringVar (flag_namespace cl) "default") c
                       = true
                    /\ x = with_status "stopped" c.
Proof.
  unfold NewDaemonPortForwardCmd.
  destruct (_ || _ || _ || _ || _)%bool; cbn [snd]; [auto|].
  destruct (negb _); cbn [snd]; [auto|].
  destruct (ParseInt _ 32) as [rp|]; cbn [snd]; [|auto].
  unfold runPortForwardDaemon.
  destruct (on_start e); cbn [snd registry log with_registry]; [|auto|auto].
  destruct (on_run e); cbn [snd registry log with_registry].
  - unfold updateConnectionStatus.
    destruct (loadConnections (dfs e) (registry w)) as [s|] eqn:El;
      cbn [snd]; [|auto].
    apply load_inv in El as (_ & Er & Hst). rewrite <- Er.
    destruct (mark_first _ _ "stopped" (elems s)) as [l|] eqn:Em;
      cbn [snd]; [|rewrite Er; auto].
    destruct (mark_first_members _ _ _ _ _ Em) as [Hlen Hmem].
    destruct (records_after_save (dfs e) (mk_slice l) (registry w)
                (mark_first_stored _ _ _ _ Em Hst))
      as [-> | [-> | ->]]; rewrite <- ?Er; cbn [elems List.length].
    + auto.
    + split; [now rewrite Hlen | exact Hmem].
    + split; [apply Nat.le_0_l | intros x []].
  - rewrite remove_unfold.
    destruct (loadConnections (dfs e) (registry w)) as [s|] eqn:El;
      cbn [snd]; [|auto].
    apply load_inv in El as (_ & Er & Hst). rewrite <- Er.
    assert (Hr : forallb conn_stored
                   (elems (collect (others (StringVar (flag_service cl) "")
                                      (StringVar (flag_namespace cl) "default")
                                      (elems s)))) = true).
    { rewrite elems_collect. unfold others. now apply forallb_filter. }
    destruct (records_after_save (dfs e) _ (registry w) Hr)
      as [-> | [-> | ->]]; rewrite <- ?Er, ?elems_collect.
    + auto.
    + split.
      * unfold others. apply filter_length_le.
      * intros x Hx. left. now apply others_spec in Hx.
    + split; [apply Nat.le_0_l | intros x []].
Qed.

Lemma daemon_never_adds_witness :
  In (db_record 4242 "stopped")
     (registry_records (registry (holding [db_record 4242 "active"])))
  \/ exists c,
       In c (registry_records (registry (holding [db_record 4242 "active"])))
       /\ same_key (StringVar (flag_service (daemon_db (Some "prod"))) "")
                   (StringVar (flag_namespace (daemon_db (Some "prod")))
                              "default") c
          = true
       /\ db_record 4242 "stopped" = with_status "stopped" c.
Proof.
  destruct (daemon_never_adds (daemon_env fs_good (TunnelError "lost"))
              (daemon_db (Some "prod"))
              (holding [db_record 4242 "active"])) as [_ H].
  apply H. vm_compute. left. reflexivity.
Defined.

(* ------------------------------------------------------------------ *)
(** * Adding and removing compose *)

(** X21. Adding a record and then removing the (name, scope) under
    which it is stored (its own, coerced to valid UTF-8), with file
    systems that work, leaves the records that were loaded before the
    addition minus those of that pair; when no loaded record had the
    pair, the registry holds exactly the records it held before. *)
Theorem add_then_remove e e2 conn f s :
  loadConnections e f = Ok s ->
  write_out e = WriteOk ->
  conn_in_range conn = true ->
  fs_works e2 ->
  registry_records
    (snd (removeConnection e2 (ServiceName (coerced conn))
            (Namespace (coerced conn)) (snd (addConnection e conn f))))
  = others (ServiceName (coerced conn)) (Namespace (coerced conn)) (elems s)
  /\ (find (same_key (ServiceName (coerced conn)) (Namespace (coerced conn)))
           (elems s) = None ->
      registry_records
        (snd (removeConnection e2 (ServiceName (coerced conn))
                (Namespace (coerced conn)) (snd (addConnection e conn f))))
      = elems s).
Proof.
  intros Hl Hw Hc Hworks2.
  pose proof Hworks2 as [Hr2 Hw2]%fs_works_split.
  pose proof (load_after_add e e2 conn f s Hl Hw Hc Hr2) as Hl2.
  assert (Hrec : registry_records
                   (snd (removeConnection e2 (ServiceName (coerced conn))
                           (Namespace (coerced conn))
                           (snd (addConnection e conn f))))
                 = others (ServiceName (coerced conn))
                          (Namespace (coerced conn)) (elems s)).
  { destruct (remove_records e2 (ServiceName (coerced conn))
                (Namespace (coerced conn))
                (snd (addConnection e conn f)) Hworks2) as [_ ->].
    rewrite <- (load_records _ _ _ Hl2). cbn [elems].
    unfold others. rewrite filter_app. cbn [filter].
    unfold same_key at 2. rewrite !String.eqb_refl. cbn.
    now rewrite app_nil_r. }
  split; [exact Hrec|].
  intros Hnone. rewrite Hrec. unfold others.
  apply forallb_filter_id, forallb_forall. intros c Hin.
  now rewrite (find_none _ _ Hnone c Hin).
Qed.

Lemma add_then_remove_witness :
  registry_records
    (snd (removeConnection fs_good "db" "prod"
            (snd (addConnection fs_good (db_record 4242 "active")
                    (registry (holding [web_record 7]))))))
  = [web_record 7].
Proof.
  destruct (add_then_remove fs_good fs_good (db_record 4242 "active")
              (registry (holding [web_record 7])) (mk_slice [web_record 7])
              eq_refl eq_refl eq_refl (conj eq_refl (conj eq_refl eq_refl)))
    as [_ H].
  exact (H eq_refl).
Defined.
